(** * gojekyll: the site model and its routing resolver

    A shallow embedding of [site/site.go] (package [site]) and of the
    second revision of the same file that carries the extensionless-URL
    fallback of [URLPage], together with the parts of Go's [path/filepath]
    (Unix flavour) that the site code calls.

    Go strings are byte strings: they are modelled by [string], whose
    characters are the 256 values of [ascii]. *)

From Stdlib Require Import String Ascii List Arith Lia Bool.
From stdpp Require Import gmap strings list fin_maps.

Local Open Scope string_scope.
Local Open Scope list_scope.

(** ** Go's [path/filepath] on Unix *)

Module filepath.

(** [os.IsPathSeparator]: on Unix the only separator is the slash. *)
Definition IsPathSeparator (c : ascii) : bool := Ascii.eqb c "/".

(** [strings.Split (s, "/")]: the elements between slashes; a string with
    [n] slashes has [n + 1] elements, some of them possibly empty. *)
Fixpoint split (s : string) : list string :=
  match s with
  | EmptyString => [""]
  | String c r =>
      if IsPathSeparator c then "" :: split r
      else match split r with
           | e :: es => String c e :: es
           | [] => [String c ""]
           end
  end.

(** [strings.Join (elems, "/")]. *)
Fixpoint join (elems : list string) : string :=
  match elems with
  | [] => ""
  | [e] => e
  | e :: es => e +:+ "/" +:+ join es
  end.

(** One turn of the loop of [Clean], on a whole path element [e].  The
    buffer [out] of the Go code is kept as the stack of the elements
    written so far, most recent first.  Go's index [dotdot] marks the
    leading run of [..] elements, which are the only [..] the buffer can
    hold: backtracking is possible ([out.w > dotdot]) exactly when the
    most recent element exists and is not [..]. *)
Definition can_backtrack (out : list string) : bool :=
  match out with
  | top :: _ => negb (top =? "..")
  | [] => false
  end.

Definition clean_step (rooted : bool) (out : list string) (e : string)
  : list string :=
  if e =? "" then out                      (* empty path element *)
  else if e =? "." then out                (* . element *)
  else if e =? ".." then                   (* .. element *)
    if can_backtrack out then tl out       (*   can backtrack *)
    else if negb rooted then ".." :: out   (*   not rooted: keep the .. *)
    else out                               (*   rooted: /.. is / *)
  else e :: out.                           (* real path element *)

Definition rooted (path : string) : bool :=
  match path with
  | String c _ => IsPathSeparator c
  | EmptyString => false
  end.

(** [filepath.Clean]. *)
Definition Clean (path : string) : string :=
  if path =? "" then "."
  else
    let out := fold_left (clean_step (rooted path)) (split path) [] in
    let body := join (rev out) in
    if rooted path then "/" +:+ body
    else if body =? "" then "." else body.

(** [filepath.Join]: empty elements are ignored, the rest is joined with
    slashes and cleaned; the result is empty only when every element is. *)
Fixpoint Join (elem : list string) : string :=
  match elem with
  | [] => ""
  | e :: es => if e =? "" then Join es else Clean (join elem)
  end.

(** [path[:i+1]] for [i] the index of the last slash of [path] (the empty
    string when there is none): what [Dir] hands to [Clean]. *)
Fixpoint dir_prefix (path : string) : string :=
  match path with
  | EmptyString => ""
  | String c r =>
      let r' := dir_prefix r in
      if (r' =? "") && negb (IsPathSeparator c) then "" else String c r'
  end.

(** [filepath.Dir]. *)
Definition Dir (path : string) : string := Clean (dir_prefix path).

(** [path] without its trailing slashes. *)
Fixpoint strip_trailing (path : string) : string :=
  match path with
  | EmptyString => ""
  | String c r =>
      let r' := strip_trailing r in
      if (r' =? "") && IsPathSeparator c then "" else String c r'
  end.

(** [filepath.Base]. *)
Definition Base (path : string) : string :=
  if path =? "" then "."
  else
    let e := List.last (split (strip_trailing path)) "" in
    if e =? "" then "/" else e.

(** The elements of a cleaned path: a cleaned path has an empty element
    only before its leading slash (and after it, for the root itself). *)
Definition elements (path : string) : list string :=
  List.filter (fun e => negb (e =? "")) (split path).

Fixpoint drop_common (bs ts : list string) : list string * list string :=
  match bs, ts with
  | b :: bs', t :: ts' => if b =? t then drop_common bs' ts' else (bs, ts)
  | _, _ => (bs, ts)
  end.

(** [filepath.Rel], lexically; [None] is its error result.  The site code
    only compares the result with a path, so the theorems below are stated
    for any such function ([Rel] of [Externals]); this one instantiates
    them on concrete sites. *)
Definition Rel (basepath targpath : string) : option string :=
  let base := Clean basepath in
  let targ := Clean targpath in
  if targ =? base then Some "."
  else
    let base := if base =? "." then "" else base in
    let targ := if targ =? "." then "" else targ in
    if negb (Bool.eqb (rooted base) (rooted targ)) then None
    else
      match drop_common (elements base) (elements targ) with
      | ([], ts) => Some (join ts)
      | (b :: bs, ts) =>
          if b =? ".." then None
          else Some (join (List.map (fun _ => "..") (b :: bs) ++ ts))
      end.

(** [filepath.IsAbs]: on Unix, the paths that start with a slash. *)
Definition IsAbs (path : string) : bool := rooted path.

(** [filepath.Abs] on Unix.  [wd] is the result of [os.Getwd]: the working
    directory, or the text of its error; the error of [Abs] is that of
    [Getwd]. *)
Definition Abs (wd : string + string) (path : string) : string + string :=
  if IsAbs path then inl (Clean path)
  else
    match wd with
    | inl dir => inl (Join [dir; path])
    | inr err => inr err
    end.

End filepath.

(** ** The collaborating packages, as far as the site reads them *)

(** Go's [interface{}] values held by the configuration variables and by the
    drop: a string, or any other value, kept opaque. *)
Inductive any : Type :=
  | AnyString (s : string)
  | AnyOpaque (tag : nat).

(** A Go call either returns or panics. *)
Inductive outcome (A : Type) : Type :=
  | Returns (a : A)
  | Panics (msg : string).
Arguments Returns {A} a.
Arguments Panics {A} msg.

(** A Go method that mutates its receiver either runs to its end or
    panics on the way; in both cases it leaves a state behind. *)
Inductive mutation (A : Type) : Type :=
  | Completes (a : A)
  | PanicsAt (msg : string) (a : A).
Arguments Completes {A} a.
Arguments PanicsAt {A} msg a.

Definition left_by {A : Type} (m : mutation A) : A :=
  match m with
  | Completes a => a
  | PanicsAt _ a => a
  end.

Module pages.

(** [pages.Document] is an interface; the site reads a document's source
    path and permalink, and asks whether its dynamic type also implements
    [pages.Page] (the type assertion [d.(pages.Page)]). *)
Record Document : Type := {
  SourcePath : string;
  Permalink : string;
  IsPage : bool
}.

End pages.

Module collection.

Record Collection : Type := {
  Name : string;
  Pages : list pages.Document
}.

End collection.

Module config.

(** The fields of [config.Config] that the site reads or writes.
    [Variables] is a Go map: [None] is the nil map, which reads as the empty
    map and panics when an entry is assigned. *)
Record Config : Type := {
  Source : string;
  Destination : string;
  Include : list string;
  Exclude : list string;
  KeepFiles : list string;
  Plugins : list string;
  AbsoluteURL : string;
  Variables : option (gmap string any)
}.

(** Reading [c.Variables[key]]. *)
Definition variable (c : Config) (key : string) : option any :=
  match Variables c with
  | Some vars => vars !! key
  | None => None
  end.

(** Modelled from the spec: [Config.Set], the method that the second
    revision calls as [s.cfg.Set("url", url)]; package [config] is not among
    the files at hand.  The spec has [SetAbsoluteURL] set the configuration's
    [url] template variable to the new value, and names no configuration on
    which this fails. *)
Definition Set_ (c : Config) (key : string) (val : any) : Config :=
  {| Source := Source c;
     Destination := Destination c;
     Include := Include c;
     Exclude := Exclude c;
     KeepFiles := KeepFiles c;
     Plugins := Plugins c;
     AbsoluteURL := AbsoluteURL c;
     Variables :=
       Some (<[key := val]>
               match Variables c with Some vars => vars | None => ∅ end) |}.

(** The assignment [c.AbsoluteURL = url]. *)
Definition set_AbsoluteURL (c : Config) (url : string) : Config :=
  {| Source := Source c;
     Destination := Destination c;
     Include := Include c;
     Exclude := Exclude c;
     KeepFiles := KeepFiles c;
     Plugins := Plugins c;
     AbsoluteURL := url;
     Variables := Variables c |}.

(** The assignment [c.Variables[key] = val]; [None] is Go's run-time panic
    "assignment to entry in nil map". *)
Definition set_Variable (c : Config) (key : string) (val : any)
  : option Config :=
  match Variables c with
  | Some vars =>
      Some {| Source := Source c;
              Destination := Destination c;
              Include := Include c;
              Exclude := Exclude c;
              KeepFiles := KeepFiles c;
              Plugins := Plugins c;
              AbsoluteURL := AbsoluteURL c;
              Variables := Some (<[key := val]> vars) |}
  | None => None
  end.

End config.

(** What the site calls outside [site.go]: its value is fixed by code that
    is not part of the file, so it is a parameter of the development.
    - [MatchList] is [utils.MatchList]: does one of the patterns match?
    - [Lookup] is [plugins.Lookup], the process-wide plugin registry;
    - [Rel] is [filepath.Rel], [None] standing for its error result;
    - [MustRel] is [utils.MustRel], which returns a relative path or
      panics. *)
Class Externals : Type := {
  Plugin : Type;
  Manager : Type;
  Flags : Type;
  error : Type;
  MatchList : list string -> string -> bool;
  Lookup : string -> option Plugin;
  Rel : string -> string -> option string;
  MustRel : string -> string -> outcome string
}.

Module renderers.

(** [renderers.Options], as [initializeRenderers] fills it.  The callback
    is the method value [s.FilenameURLPath]; like the method it takes the
    order in which the call ranges over the routes. *)
Record Options : Type := {
  RelativeFilenameToURL : list (string * pages.Document) -> string -> option string;
  ThemeDir : string
}.

End renderers.

(** The rendering package, for [initializeRenderers].  Its calls read the
    theme and change the template engine: they run over a state [World].
    - [New] is [renderers.New]; it returns the manager (a pointer, [None]
      for nil) and the error ([None] for nil);
    - [Manager_TemplateEngine] is the method [TemplateEngine] of
      [*renderers.Manager], also on the nil pointer;
    - [ConfigureTemplateEngine] is the method of [plugins.Plugin]. *)
Class Rendering `{Externals} : Type := {
  Engine : Type;
  World : Type;
  New : config.Config -> renderers.Options -> World ->
        (option Manager * option error) * World;
  Manager_TemplateEngine : option Manager -> outcome Engine;
  ConfigureTemplateEngine : Plugin -> Engine -> World -> option error * World
}.

(** ** [site/site.go] *)

Module site.
Section Site.

Context `{Externals}.

Import pages.

(** [sync.Once] is kept as its [done] flag. *)
Record Site : Type := {
  Collections : list collection.Collection;
  Routes : gmap string Document;
  config : config.Config;
  data : gmap string any;
  flags : Flags;
  themeDir : string;
  docs : list Document;
  nonCollectionPages : list Document;
  renderer : option Manager;
  renderOnce : bool;
  drop : option (gmap string any);
  dropOnce : bool
}.

Definition SourceDir (s : Site) : string := config.Source (config s).

Definition Pages (s : Site) : list Document :=
  filter (fun d => IsPage d = true) (docs s).

(** The callback [h] may have effects of its own: it runs over a state
    [St] that [runHooks] threads from one call to the next.  Its [error] is
    [None] for Go's [nil]. *)
Fixpoint runHooks_range {St : Type} (h : Plugin -> St -> option error * St)
    (names : list string) (st : St) : option error * St :=
  match names with
  | [] => (None, st)
  | name :: names' =>
      match Lookup name with
      | Some p =>
          match h p st with
          | (Some err, st') => (Some err, st')
          | (None, st') => runHooks_range h names' st'
          end
      | None => runHooks_range h names' st
      end
  end.

Definition runHooks {St : Type} (s : Site)
    (h : Plugin -> St -> option error * St) (st : St) : option error * St :=
  runHooks_range h (config.Plugins (config s)) st.

(** The assignments [s.config = c] and [s.drop = d]. *)
Definition set_config (s : Site) (c : config.Config) : Site :=
  {| Collections := Collections s;
     Routes := Routes s;
     config := c;
     data := data s;
     flags := flags s;
     themeDir := themeDir s;
     docs := docs s;
     nonCollectionPages := nonCollectionPages s;
     renderer := renderer s;
     renderOnce := renderOnce s;
     drop := drop s;
     dropOnce := dropOnce s |}.

Definition set_drop (s : Site) (d : option (gmap string any)) : Site :=
  {| Collections := Collections s;
     Routes := Routes s;
     config := config s;
     data := data s;
     flags := flags s;
     themeDir := themeDir s;
     docs := docs s;
     nonCollectionPages := nonCollectionPages s;
     renderer := renderer s;
     renderOnce := renderOnce s;
     drop := d;
     dropOnce := dropOnce s |}.

(** The state left behind by a panic has the new absolute URL, and the
    variables and the drop of before the call. *)
Definition SetAbsoluteURL (s : Site) (url : string) : mutation Site :=
  let s := set_config s (config.set_AbsoluteURL (config s) url) in
  match config.set_Variable (config s) "url" (AnyString url) with
  | None => PanicsAt "assignment to entry in nil map" s
  | Some c =>
      let s := set_config s c in
      match drop s with
      | Some d => Completes (set_drop s (Some (<["url" := AnyString url]> d)))
      | None => Completes s
      end
  end.

Fixpoint FilenameURLs_range (s : Site) (ps : list Document)
    (urls : gmap string string) : outcome (gmap string string) :=
  match ps with
  | [] => Returns urls
  | page :: ps' =>
      match MustRel (SourceDir s) (SourcePath page) with
      | Returns k => FilenameURLs_range s ps' (<[k := Permalink page]> urls)
      | Panics msg => Panics msg
      end
  end.

Definition FilenameURLs (s : Site) : outcome (gmap string string) :=
  FilenameURLs_range s (Pages s) ∅.

(** Go ranges over a map in an order it does not specify: an order is a
    list holding each entry of the map once. *)
Definition range_order (m : gmap string Document)
    (order : list (string * Document)) : Prop :=
  order ≡ₚ map_to_list m.

(** The result pair [(p, found)] of the lookups is an [option]: [Some p]
    for [(p, true)] and [None] for [(nil, false)].  [order] is the order in
    which this call ranges over [s.Routes]. *)
Fixpoint FilePathPage_range (s : Site) (order : list (string * Document))
    (rel : string) : option Document :=
  match order with
  | [] => None
  | (_, p) :: order' =>
      if negb (SourcePath p =? "") then
        match Rel (SourceDir s) (SourcePath p) with
        | Some r =>
            if r =? rel then Some p else FilePathPage_range s order' rel
        | None => FilePathPage_range s order' rel
        end
      else FilePathPage_range s order' rel
  end.

Definition FilePathPage (order : list (string * Document)) (s : Site)
    (rel : string) : option Document :=
  FilePathPage_range s order rel.

(** Returns [(url, true)] as [Some url] and [("", false)] as [None]. *)
Definition FilenameURLPath (order : list (string * Document)) (s : Site)
    (relpath : string) : option string :=
  match FilePathPage order s relpath with
  | Some p => Some (Permalink p)
  | None => None
  end.

Definition RendererManager (s : Site) : outcome Manager :=
  match renderer s with
  | None => Panics "uninitialized rendering manager"
  | Some m => Returns m
  end.

Definition found {A : Type} (r : option A) : bool :=
  match r with Some _ => true | None => false end.

Definition URLPage (s : Site) (urlpath : string) : option Document :=
  let r := Routes s !! urlpath in
  let r :=
    if negb (found r) then Routes s !! filepath.Join [urlpath; "index.html"]
    else r in
  let r :=
    if negb (found r) then Routes s !! filepath.Join [urlpath; "index.htm"]
    else r in
  r.

(** [excludeFileRE], the regular expression [^[#~]|^\..|~$]: a leading
    [#] or [~]; or a leading dot followed by one more character (a dot of
    a Go regular expression matches any character but the newline); or a
    [~] as the last character of the text. *)
Definition newline : ascii := "010"%char.

Fixpoint ends_with_tilde (s : string) : bool :=
  match s with
  | EmptyString => false
  | String c EmptyString => Ascii.eqb c "~"
  | String _ r => ends_with_tilde r
  end.

Definition excludeFileRE_MatchString (s : string) : bool :=
  match s with
  | EmptyString => false
  | String c r =>
      Ascii.eqb c "#" || Ascii.eqb c "~"
      || (Ascii.eqb c "." &&
          match r with
          | String d _ => negb (Ascii.eqb d newline)
          | EmptyString => false
          end)
      || ends_with_tilde s
  end.

(** [base[0] == '_']. [filepath.Base] never returns the empty string
    ([Base_not_empty] below), so the index is always in range. *)
Definition starts_with_underscore (base : string) : bool :=
  match base with
  | String c _ => Ascii.eqb c "_"
  | EmptyString => false
  end.

(** The loop of [Exclude], run for at most [fuel] turns; [None] says that
    the loop is still running after them. *)
Fixpoint Exclude_loop (fuel : nat) (s : Site) (siteRel : string)
  : option bool :=
  if siteRel =? "." then Some false
  else
    match fuel with
    | O => None
    | S fuel' =>
        let dir := filepath.Dir siteRel in
        let base := filepath.Base siteRel in
        if MatchList (config.Include (config s)) siteRel then Some false
        else if MatchList (config.Exclude (config s)) siteRel then Some true
        else if negb (dir =? ".") && starts_with_underscore base then Some true
        else if excludeFileRE_MatchString base then Some true
        else Exclude_loop fuel' s dir
    end.

(** One turn for each byte of the path and one more: enough for every
    path that does not start with a slash ([Exclude_returns] below). *)
Definition Exclude (s : Site) (siteRel : string) : option bool :=
  Exclude_loop (S (String.length siteRel)) s siteRel.

(** [wd] is what [os.Getwd] returns at the call. *)
Definition AbsDir (wd : string + string) (s : Site) : outcome string :=
  match filepath.Abs wd (SourceDir s) with
  | inl d => Returns d
  | inr err => Panics err
  end.

Definition DestDir (s : Site) : string :=
  if filepath.IsAbs (config.Destination (config s))
  then config.Destination (config s)
  else filepath.Join [config.Source (config s); config.Destination (config s)].

(** [order] is the order in which this call ranges over [s.Routes]. *)
Definition OutputDocs (order : list (string * Document)) (s : Site)
  : list Document :=
  List.map snd order.

(** The assignment [s.renderer = m]. *)
Definition set_renderer (s : Site) (m : option Manager) : Site :=
  {| Collections := Collections s;
     Routes := Routes s;
     config := config s;
     data := data s;
     flags := flags s;
     themeDir := themeDir s;
     docs := docs s;
     nonCollectionPages := nonCollectionPages s;
     renderer := m;
     renderOnce := renderOnce s;
     drop := drop s;
     dropOnce := dropOnce s |}.

End Site.

Section Renderers.

Context `{Ren : Rendering}.

Definition TemplateEngine (s : Site) : outcome Engine :=
  Manager_TemplateEngine (renderer s).

(** The result is the site after the call, the error returned and the
    state of the rendering package; the call panics when the method
    [TemplateEngine] of the manager does. *)
(** The options that [initializeRenderers] builds from the site. *)
Definition options_of (s : Site) : renderers.Options :=
  {| renderers.RelativeFilenameToURL := fun order => FilenameURLPath order s;
     renderers.ThemeDir := themeDir s |}.

Definition initializeRenderers (s : Site) (w : World)
  : outcome (Site * option error * World) :=
  let options := options_of s in
  match New (config s) options w with
  | ((m, Some err), w1) => Returns (set_renderer s m, Some err, w1)
  | ((m, None), w1) =>
      let s1 := set_renderer s m in
      match Manager_TemplateEngine (renderer s1) with
      | Panics msg => Panics msg
      | Returns engine =>
          match runHooks s1 (fun p => ConfigureTemplateEngine p engine) w1 with
          | (e, w2) => Returns (s1, e, w2)
          end
      end
  end.

End Renderers.
End site.

(** ** The second revision of [site.go]

    It names the configuration field [cfg], the accessors of a document
    [Source] and [URL], and differs from the first in [SetAbsoluteURL] and
    [URLPage]; the functions it shares with the first revision are not
    repeated. *)

Module site_r2.
Section Site.

Context `{Externals}.

Import pages.

Definition SetAbsoluteURL (s : site.Site) (url : string) : site.Site :=
  let s := site.set_config s (config.set_AbsoluteURL (site.config s) url) in
  let s := site.set_config s (config.Set_ (site.config s) "url" (AnyString url)) in
  match site.drop s with
  | Some d => site.set_drop s (Some (<["url" := AnyString url]> d))
  | None => s
  end.

Definition URLPage (s : site.Site) (urlpath : string) : option Document :=
  let r := site.Routes s !! urlpath in
  let r :=
    if negb (site.found r)
    then site.Routes s !! filepath.Join [urlpath; "index.html"]
    else r in
  let r :=
    if negb (site.found r)
    then site.Routes s !! filepath.Join [urlpath; "index.htm"]
    else r in
  let r :=
    if negb (site.found r)
    then site.Routes s !! filepath.Join [urlpath +:+ ".html"]
    else r in
  r.

(** [c.Pages ()] is the field [Pages] of the collection; the nil slice and
    the empty slice are both the empty list. *)
Fixpoint Posts_range (cs : list collection.Collection) : list Document :=
  match cs with
  | [] => []
  | c :: cs' =>
      if collection.Name c =? "posts" then collection.Pages c
      else Posts_range cs'
  end.

Definition Posts (s : site.Site) : list Document :=
  Posts_range (site.Collections s).

End Site.
End site_r2.

(** ** A concrete environment

    Plugins are known by their names and two of them are registered; the
    patterns are literal ones, which match the path equal to them. *)

Definition MatchList_literal (patterns : list string) (name : string) : bool :=
  existsb (fun pat => pat =? name) patterns.

Definition registry (name : string) : option string :=
  if (name =? "jekyll-feed") || (name =? "jekyll-sitemap") then Some name
  else None.

(** [filepath.Rel] whose error is turned into a panic. *)
Definition MustRel_lexical (basepath targpath : string) : outcome string :=
  match filepath.Rel basepath targpath with
  | Some rel => Returns rel
  | None =>
      Panics ("Rel: can't make " +:+ targpath +:+ " relative to " +:+ basepath)
  end.

#[global] Instance unix : Externals := {|
  Plugin := string;
  Manager := nat;
  Flags := unit;
  error := string;
  MatchList := MatchList_literal;
  Lookup := registry;
  Rel := filepath.Rel;
  MustRel := MustRel_lexical
|}.

Definition empty_config : config.Config :=
  {| config.Source := "src";
     config.Destination := "_site";
     config.Include := [];
     config.Exclude := [];
     config.KeepFiles := [];
     config.Plugins := [];
     config.AbsoluteURL := "";
     config.Variables := Some ∅ |}.

Definition site_of (c : config.Config) (routes : gmap string pages.Document)
    (ds : list pages.Document) : site.Site :=
  {| site.Collections := [];
     site.Routes := routes;
     site.config := c;
     site.data := ∅;
     site.flags := tt;
     site.themeDir := "";
     site.docs := ds;
     site.nonCollectionPages := [];
     site.renderer := None;
     site.renderOnce := false;
     site.drop := None;
     site.dropOnce := false |}.

Definition with_patterns (include exclude : list string) : config.Config :=
  {| config.Source := "src";
     config.Destination := "_site";
     config.Include := include;
     config.Exclude := exclude;
     config.KeepFiles := [];
     config.Plugins := [];
     config.AbsoluteURL := "";
     config.Variables := Some ∅ |}.

(** ** Measures and reference definitions used by the theorems *)

(** The bytes of the elements of a path, one more for each element. *)
Definition weight (elems : list string) : nat :=
  fold_right (fun e n => S (String.length e) + n) 0 elems.

(** What [Clean] keeps of a relative path: elements that are not empty and
    do not start with a slash. *)
Definition element_ok (e : string) : Prop :=
  e <> "" /\ filepath.rooted e = false.

Section Reference.

Context `{Externals}.

Import pages.

(** *** The walk of the exclusion policy, in the words of the specification *)

(** The rules of one level, in their precedence: [Some false] is "not
    excluded", [Some true] is "excluded", [None] is "continue to the
    parent". *)
Definition level_verdict (s : site.Site) (level : string) : option bool :=
  if MatchList (config.Include (site.config s)) level then Some false
  else if MatchList (config.Exclude (site.config s)) level then Some true
  else if negb (filepath.Dir level =? ".")
          && site.starts_with_underscore (filepath.Base level) then Some true
  else if site.excludeFileRE_MatchString (filepath.Base level) then Some true
  else None.

(** The levels from a path up to the root, the root left out. *)
Fixpoint levels_upto (fuel : nat) (p : string) : list string :=
  if p =? "." then []
  else
    match fuel with
    | O => []
    | S fuel' => p :: levels_upto fuel' (filepath.Dir p)
    end.

Definition levels (p : string) : list string :=
  levels_upto (S (String.length p)) p.

(** The first rule that fires decides; none firing is "not excluded". *)
Fixpoint first_verdict (vs : list (option bool)) : bool :=
  match vs with
  | [] => false
  | Some b :: _ => b
  | None :: vs' => first_verdict vs'
  end.

Definition Exclude_walk (s : site.Site) (p : string) : bool :=
  first_verdict (List.map (level_verdict s) (levels p)).

(** "Include wins at whatever level each pattern matches": an include
    pattern and an exclude pattern each match some level of the walk of
    [p], and [p] is not excluded. *)
Definition include_wins_at_any_level (s : site.Site) (p : string) : Prop :=
  (exists l, In l (levels p) /\ MatchList (config.Include (site.config s)) l = true) ->
  (exists l, In l (levels p) /\ MatchList (config.Exclude (site.config s)) l = true) ->
  site.Exclude s p = Some false.

(** "Every path whose basename matches the junk-file pattern is excluded". *)
Definition junk_always_excluded (s : site.Site) (p : string) : Prop :=
  site.excludeFileRE_MatchString (filepath.Base p) = true ->
  site.Exclude s p = Some true.

(** *** The fallback chain of [URLPage] *)

Fixpoint first_found {A : Type} (lookups : list (option A)) : option A :=
  match lookups with
  | [] => None
  | Some x :: _ => Some x
  | None :: lookups' => first_found lookups'
  end.

(** The chain with the literal suffix as its fourth key. *)
Definition chain_literal (s : site.Site) (u : string) : option Document :=
  first_found
    [site.Routes s !! u;
     site.Routes s !! filepath.Join [u; "index.html"];
     site.Routes s !! filepath.Join [u; "index.htm"];
     site.Routes s !! (u +:+ ".html")].

(** The chain with the cleaned suffixed path as its fourth key. *)
Definition chain_cleaned (s : site.Site) (u : string) : option Document :=
  first_found
    [site.Routes s !! u;
     site.Routes s !! filepath.Join [u; "index.html"];
     site.Routes s !! filepath.Join [u; "index.htm"];
     site.Routes s !! filepath.Clean (u +:+ ".html")].

(** The chain that ends after the directory indexes. *)
Definition chain_index (s : site.Site) (u : string) : option Document :=
  first_found
    [site.Routes s !! u;
     site.Routes s !! filepath.Join [u; "index.html"];
     site.Routes s !! filepath.Join [u; "index.htm"]].

(** *** The scan of [FilePathPage] *)

(** The relative path under which a document takes part in the scan. *)
Definition relative_source (s : site.Site) (d : Document) : option string :=
  if SourcePath d =? "" then None else Rel (site.SourceDir s) (SourcePath d).

Definition FilePathPage_roundtrip (s : site.Site) : Prop :=
  forall order k d r,
    site.range_order (site.Routes s) order ->
    site.Routes s !! k = Some d ->
    SourcePath d <> "" ->
    Rel (site.SourceDir s) (SourcePath d) = Some r ->
    site.FilePathPage order s r = Some d.

(** No two documents of [Routes] take part under the same relative path. *)
Definition unique_sources (s : site.Site) : Prop :=
  forall k1 d1 k2 d2 r,
    site.Routes s !! k1 = Some d1 ->
    site.Routes s !! k2 = Some d2 ->
    relative_source s d1 = Some r ->
    relative_source s d2 = Some r ->
    d1 = d2.

(** *** [FilenameURLs] *)

(** The permalink of the last of [ps] whose source path, made relative to
    the source directory by [MustRel], is [k]. *)
Fixpoint last_url (s : site.Site) (ps : list Document) (k : string)
  : option string :=
  match ps with
  | [] => None
  | p :: ps' =>
      match last_url s ps' k with
      | Some u => Some u
      | None =>
          match MustRel (site.SourceDir s) (SourcePath p) with
          | Returns r => if r =? k then Some (Permalink p) else None
          | Panics _ => None
          end
      end
  end.

(** [MustRel] returns on the source path of the document. *)
Definition relativizable (s : site.Site) (p : Document) : Prop :=
  exists k, MustRel (site.SourceDir s) (SourcePath p) = Returns k.

(** "[FilenameURLs] has [k] at [u] exactly when [FilenameURLPath (k)] is
    [(u, true)]". *)
Definition FilenameURLs_agree (s : site.Site) : Prop :=
  forall order m k u,
    site.range_order (site.Routes s) order ->
    site.FilenameURLs s = Returns m ->
    (m !! k = Some u <-> site.FilenameURLPath order s k = Some u).

(** *** The dispatch of [runHooks] *)

(** A callback that also records the plugin it is invoked on. *)
Definition logged {St : Type} (h : Plugin -> St -> option error * St)
    (p : Plugin) (st : St * list Plugin) : option error * (St * list Plugin) :=
  match h p (fst st) with
  | (e, st') => (e, (st', snd st ++ [p]))
  end.

(** The state after [h] was invoked on each of [ps] in turn, when every
    one of these calls returned [nil]. *)
Fixpoint all_nil {St : Type} (h : Plugin -> St -> option error * St)
    (ps : list Plugin) (st : St) : option St :=
  match ps with
  | [] => Some st
  | p :: ps' =>
      match h p st with
      | (None, st') => all_nil h ps' st'
      | (Some _, _) => None
      end
  end.

(** The plugins that the names resolve to, in the order of the names. *)
Definition resolved (names : list string) : list Plugin :=
  omap Lookup names.

(** *** The effect of [SetAbsoluteURL] *)

Definition SetAbsoluteURL_effect (s : site.Site) (url : string)
    (s' : site.Site) : Prop :=
  config.AbsoluteURL (site.config s') = url /\
  config.variable (site.config s') "url" = Some (AnyString url) /\
  (forall k, k <> "url" ->
     config.variable (site.config s') k = config.variable (site.config s) k) /\
  (site.drop s = None -> site.drop s' = None) /\
  (forall d, site.drop s = Some d ->
     exists d', site.drop s' = Some d' /\
       d' !! "url" = Some (AnyString url) /\
       forall k, k <> "url" -> d' !! k = d !! k) /\
  site.Routes s' = site.Routes s /\
  site.Collections s' = site.Collections s /\
  site.docs s' = site.docs s /\
  site.nonCollectionPages s' = site.nonCollectionPages s /\
  site.data s' = site.data s /\
  site.flags s' = site.flags s /\
  site.themeDir s' = site.themeDir s /\
  site.renderer s' = site.renderer s /\
  site.renderOnce s' = site.renderOnce s /\
  site.dropOnce s' = site.dropOnce s /\
  config.Source (site.config s') = config.Source (site.config s) /\
  config.Destination (site.config s') = config.Destination (site.config s) /\
  config.Include (site.config s') = config.Include (site.config s) /\
  config.Exclude (site.config s') = config.Exclude (site.config s) /\
  config.KeepFiles (site.config s') = config.KeepFiles (site.config s) /\
  config.Plugins (site.config s') = config.Plugins (site.config s).

(** "[SetAbsoluteURL (url)] sets the values and keeps the rest": the call
    runs to its end and has the effect above. *)
Definition SetAbsoluteURL_sets (s : site.Site) (url : string) : Prop :=
  exists s', site.SetAbsoluteURL s url = Completes s' /\
             SetAbsoluteURL_effect s url s'.

End Reference.

(** ** Concrete sites *)

(** No pattern configured. *)
Definition plain_site : site.Site := site_of empty_config ∅ [].

(** [.htaccess] is an include pattern, as in Jekyll's defaults. *)
Definition htaccess_site : site.Site :=
  site_of (with_patterns [".htaccess"] []) ∅ [].

(** The directory [a] is included, its entry [a/b] is excluded. *)
Definition nested_site : site.Site :=
  site_of (with_patterns ["a"] ["a/b"]) ∅ [].

Definition page (source url : string) : pages.Document :=
  {| pages.SourcePath := source; pages.Permalink := url; pages.IsPage := true |}.

(** The only route is a page whose URL has a doubled slash. *)
Definition doubled_slash_site : site.Site :=
  site_of empty_config {[ "a//b.html" := page "src/b.html" "a//b.html" ]} [].

(** The only route is [/blog.html]. *)
Definition blog_site : site.Site :=
  site_of empty_config {[ "/blog.html" := page "src/blog.html" "/blog.html" ]} [].

(** Two routes lead to two documents made from the same source file. *)
Definition twin_site : site.Site :=
  site_of empty_config
    (<[ "/a/" := page "src/x.md" "/a/" ]> {[ "/b/" := page "src/x.md" "/b/" ]})
    [page "src/x.md" "/a/"; page "src/x.md" "/b/"].

(** Two routes, two source files. *)
Definition two_pages_site : site.Site :=
  site_of empty_config
    (<[ "/a/" := page "src/a.md" "/a/" ]> {[ "/b/" := page "src/b.md" "/b/" ]})
    [page "src/a.md" "/a/"; page "src/b.md" "/b/"].

(** A page that is not an output page: it is among the documents and has
    no route. *)
Definition unpublished_site : site.Site :=
  site_of empty_config ∅ [page "src/a.md" "/a/"].

(** The renderer of the site is set. *)
Definition ready_site : site.Site :=
  {| site.Collections := [];
     site.Routes := ∅;
     site.config := empty_config;
     site.data := ∅;
     site.flags := tt;
     site.themeDir := "";
     site.docs := [];
     site.nonCollectionPages := [];
     site.renderer := Some 7;
     site.renderOnce := true;
     site.drop := Some {[ "title" := AnyString "Home" ]};
     site.dropOnce := true |}.

(** Three plugins are configured, the first of them is not registered. *)
Definition plugins_site : site.Site :=
  site_of
    {| config.Source := "src";
       config.Destination := "_site";
       config.Include := [];
       config.Exclude := [];
       config.KeepFiles := [];
       config.Plugins := ["jekyll-missing"; "jekyll-feed"; "jekyll-sitemap"];
       config.AbsoluteURL := "";
       config.Variables := Some ∅ |}
    ∅ [].

(** A callback that counts its calls and fails on the plugin [bad]. *)
Definition failing_on (bad : string) (p : string) (calls : nat)
  : option string * nat :=
  if p =? bad then (Some "failed", S calls) else (None, S calls).

(** The only route is the index of the directory [/blog]. *)
Definition blog_index_site : site.Site :=
  site_of empty_config
    {[ "/blog/index.html" := page "src/blog/index.md" "/blog/index.html" ]} [].

(** A page whose source path is relative, in a site whose source directory
    is absolute. *)
Definition mixed_site : site.Site :=
  site_of
    {| config.Source := "/abs";
       config.Destination := "_site";
       config.Include := [];
       config.Exclude := [];
       config.KeepFiles := [];
       config.Plugins := [];
       config.AbsoluteURL := "";
       config.Variables := Some ∅ |}
    ∅ [page "/abs/ok.md" "/ok/"; page "rel/a.md" "/a/"].

(** A rendering package whose [New] needs a source directory, and in
    which the plugin [jekyll-sitemap] fails to configure the engine; the
    state is the list of the plugins that were asked to. *)
Definition New_sample (c : config.Config) (o : renderers.Options)
    (w : list string) : (option nat * option string) * list string :=
  if config.Source c =? "" then ((None, Some "no source directory"), w)
  else ((Some 7, None), w).

Definition TemplateEngine_sample (m : option nat) : outcome nat :=
  match m with
  | Some n => Returns n
  | None => Panics "invalid memory address or nil pointer dereference"
  end.

Definition Configure_sample (p : string) (engine : nat) (w : list string)
  : option string * list string :=
  if p =? "jekyll-sitemap" then (Some "failed", w ++ [p]) else (None, w ++ [p]).

#[global] Instance sample_rendering : Rendering := {|
  Engine := nat;
  World := list string;
  New := New_sample;
  Manager_TemplateEngine := TemplateEngine_sample;
  ConfigureTemplateEngine := Configure_sample
|}.

(** The site of [plugins_site], without a source directory. *)
Definition sourceless_site : site.Site :=
  site_of
    {| config.Source := "";
       config.Destination := "_site";
       config.Include := [];
       config.Exclude := [];
       config.KeepFiles := [];
       config.Plugins := ["jekyll-missing"; "jekyll-feed"; "jekyll-sitemap"];
       config.AbsoluteURL := "";
       config.Variables := Some ∅ |}
    ∅ [].

(** Two collections are named [posts]. *)
Definition posts_site : site.Site :=
  {| site.Collections :=
       [ {| collection.Name := "pages"; collection.Pages := [page "src/a.md" "/a/"] |};
         {| collection.Name := "posts"; collection.Pages := [page "src/_posts/p.md" "/p/"] |};
         {| collection.Name := "posts"; collection.Pages := [page "src/_posts/q.md" "/q/"] |} ];
     site.Routes := ∅;
     site.config := empty_config;
     site.data := ∅;
     site.flags := tt;
     site.themeDir := "";
     site.docs := [];
     site.nonCollectionPages := [];
     site.renderer := None;
     site.renderOnce := false;
     site.drop := None;
     site.dropOnce := false |}.

(** A site that was not made by [New]: the variables of its configuration
    are the nil map; its drop is cached. *)
Definition nil_variables_site : site.Site :=
  {| site.Collections := [];
     site.Routes := ∅;
     site.config :=
       {| config.Source := "src";
          config.Destination := "_site";
          config.Include := [];
          config.Exclude := [];
          config.KeepFiles := [];
          config.Plugins := [];
          config.AbsoluteURL := "";
          config.Variables := None |};
     site.data := ∅;
     site.flags := tt;
     site.themeDir := "";
     site.docs := [];
     site.nonCollectionPages := [];
     site.renderer := None;
     site.renderOnce := false;
     site.drop := Some {[ "title" := AnyString "Home" ]};
     site.dropOnce := true |}.

(** Two plugins are configured and the registry knows neither. *)
Definition unregistered_site : site.Site :=
  site_of
    {| config.Source := "src";
       config.Destination := "_site";
       config.Include := [];
       config.Exclude := [];
       config.KeepFiles := [];
       config.Plugins := ["jekyll-missing"; "jekyll-gone"];
       config.AbsoluteURL := "";
       config.Variables := Some ∅ |}
    ∅ [].

Example Clean_ex1 : filepath.Clean "a//b/./c/.." = "a/b". Proof. reflexivity. Qed.
Example Clean_ex2 : filepath.Clean "/../a/" = "/a". Proof. reflexivity. Qed.
Example Clean_ex3 : filepath.Clean "../../a/../.." = "../../..". Proof. reflexivity. Qed.
Example Clean_ex4 : filepath.Clean "a/.." = ".". Proof. reflexivity. Qed.
Example Dir_ex1 : filepath.Dir "sub/_drafts" = "sub". Proof. reflexivity. Qed.
Example Dir_ex2 : filepath.Dir "_posts" = ".". Proof. reflexivity. Qed.
Example Dir_ex3 : filepath.Dir "/" = "/". Proof. reflexivity. Qed.
Example Base_ex1 : filepath.Base "sub/_drafts/" = "_drafts". Proof. reflexivity. Qed.
Example Base_ex2 : filepath.Base "///" = "/". Proof. reflexivity. Qed.
Example Join_ex1 : filepath.Join ["/blog/"; "index.html"] = "/blog/index.html". Proof. reflexivity. Qed.
Example Join_ex2 : filepath.Join [""; "index.html"] = "index.html". Proof. reflexivity. Qed.
Example Rel_ex1 : filepath.Rel "src" "src/x.md" = Some "x.md". Proof. reflexivity. Qed.
Example Rel_ex2 : filepath.Rel "a/b/c" "a/c/d" = Some "../../c/d". Proof. reflexivity. Qed.
Example Rel_ex3 : filepath.Rel "/a" "a" = None. Proof. reflexivity. Qed.
Example Rel_ex4 : filepath.Rel "." "a/b" = Some "a/b". Proof. reflexivity. Qed.
Example Rel_ex5 : filepath.Rel "/" "/a/b" = Some "a/b". Proof. reflexivity. Qed.
Example Rel_ex6 : filepath.Rel "src" "" = Some "..". Proof. reflexivity. Qed.
Example Rel_ex7 : filepath.Rel "a/b" "." = Some "../..". Proof. reflexivity. Qed.
Example Rel_ex8 : filepath.Rel ".." "." = None. Proof. reflexivity. Qed.
Example Exclude_ex1 : site.Exclude (site_of empty_config ∅ []) "_posts" = Some false. Proof. reflexivity. Qed.
Example Exclude_ex2 : site.Exclude (site_of empty_config ∅ []) "sub/_drafts" = Some true. Proof. reflexivity. Qed.
Example Exclude_ex3 : site.Exclude (site_of empty_config ∅ []) "/" = None. Proof. reflexivity. Qed.
Example Exclude_ex4 : site.Exclude (site_of empty_config ∅ []) "a/b/.git/config" = Some true. Proof. reflexivity. Qed.
Example Exclude_ex5 : site.Exclude (site_of (with_patterns [".htaccess"] []) ∅ []) ".htaccess" = Some false. Proof. reflexivity. Qed.

(** ** Facts about the paths *)

Section PathFacts.

Import filepath.

Lemma weight_app l1 l2 : weight (l1 ++ l2) = weight l1 + weight l2.
Proof. induction l1 as [|e l1 IH]; simpl; [reflexivity | rewrite IH; lia]. Qed.

Lemma weight_rev l : weight (rev l) = weight l.
Proof.
  induction l as [|e l IH]; simpl; [reflexivity|].
  rewrite weight_app, IH. simpl. lia.
Qed.

Lemma string_length_app (a b : string) :
  String.length (a +:+ b) = String.length a + String.length b.
Proof. induction a as [|c a IH]; simpl; [reflexivity | now rewrite IH]. Qed.

Lemma split_not_nil s : split s <> [].
Proof.
  destruct s as [|c r]; simpl; [discriminate|].
  destruct (IsPathSeparator c); [discriminate|].
  destruct (split r); discriminate.
Qed.

Lemma split_app_slash y z : split (y +:+ String "/" z) = split y ++ split z.
Proof.
  induction y as [|c y IH]; simpl; [reflexivity|].
  destruct (IsPathSeparator c); [now rewrite IH|].
  rewrite IH. destruct (split y) as [|e es] eqn:E; [now apply split_not_nil in E|].
  reflexivity.
Qed.

Lemma weight_split s : weight (split s) = S (String.length s).
Proof.
  induction s as [|c r IH]; simpl; [reflexivity|].
  destruct (IsPathSeparator c); simpl; [rewrite IH; lia|].
  destruct (split r) as [|e es] eqn:E; [now apply split_not_nil in E|].
  simpl in *. lia.
Qed.

Lemma weight_join es : es <> [] -> S (String.length (join es)) = weight es.
Proof.
  induction es as [|e es IH]; [congruence|]. intros _.
  destruct es as [|e' es]; [simpl; lia|].
  change (join (e :: e' :: es)) with (e +:+ "/" +:+ join (e' :: es)).
  rewrite !string_length_app.
  change (weight (e :: e' :: es)) with (S (String.length e) + weight (e' :: es)).
  rewrite <- IH by discriminate. simpl. lia.
Qed.

Lemma weight_clean_step r out e :
  weight (clean_step r out e) <= weight out + S (String.length e).
Proof.
  unfold clean_step.
  destruct (e =? "") eqn:E1; [lia|].
  destruct (e =? ".") eqn:E2; [lia|].
  destruct (e =? "..") eqn:E3.
  - apply String.eqb_eq in E3. subst e.
    destruct (can_backtrack out).
    + destruct out; simpl; lia.
    + destruct r; simpl; lia.
  - simpl. lia.
Qed.

Lemma weight_clean_fold r es out :
  weight (fold_left (clean_step r) es out) <= weight out + weight es.
Proof.
  revert out. induction es as [|e es IH]; intros out; simpl; [lia|].
  specialize (IH (clean_step r out e)).
  pose proof (weight_clean_step r out e). lia.
Qed.

Lemma split_unrooted s : Forall (fun e => rooted e = false) (split s).
Proof.
  induction s as [|c r IH]; simpl; [repeat constructor|].
  destruct (IsPathSeparator c) eqn:E.
  - constructor; [reflexivity | exact IH].
  - destruct (split r) as [|e es]; inversion IH; subst;
      constructor; simpl; auto.
Qed.

Lemma clean_step_ok r out e :
  Forall element_ok out -> rooted e = false ->
  Forall element_ok (clean_step r out e).
Proof.
  intros Hout He. unfold clean_step.
  destruct (e =? "") eqn:E1; [exact Hout|].
  destruct (e =? ".") eqn:E2; [exact Hout|].
  apply String.eqb_neq in E1.
  destruct (e =? "..") eqn:E3.
  - destruct (can_backtrack out).
    + destruct out; simpl; [constructor | now inversion Hout].
    + destruct r; simpl; [exact Hout|].
      constructor; [split; [discriminate | reflexivity] | exact Hout].
  - constructor; [split; assumption | exact Hout].
Qed.

Lemma clean_fold_ok r es out :
  Forall element_ok out -> Forall (fun e => rooted e = false) es ->
  Forall element_ok (fold_left (clean_step r) es out).
Proof.
  revert out. induction es as [|e es IH]; intros out Hout Hes; simpl; [exact Hout|].
  inversion Hes; subst. apply IH; [now apply clean_step_ok | assumption].
Qed.

Lemma rooted_app a b : a <> "" -> rooted (a +:+ b) = rooted a.
Proof. destruct a; [congruence | reflexivity]. Qed.

Lemma rooted_join es : Forall element_ok es -> rooted (join es) = false.
Proof.
  destruct es as [|e es]; [reflexivity|]. intros Hes.
  inversion Hes as [|? ? [Hne Hr] Hes']; subst.
  destruct es as [|e' es]; [exact Hr|].
  change (join (e :: e' :: es)) with (e +:+ "/" +:+ join (e' :: es)).
  now rewrite rooted_app.
Qed.

Lemma app_not_empty (a b : string) : b <> "" -> (a +:+ b =? "") = false.
Proof.
  intros Hb. apply String.eqb_neq. destruct a; simpl; [exact Hb | discriminate].
Qed.

(** A trailing slash is dropped by [Clean]. *)
Lemma Clean_trailing_slash y : y <> "" -> Clean (y +:+ "/") = Clean y.
Proof.
  intros Hy. unfold Clean.
  rewrite app_not_empty by discriminate.
  apply String.eqb_neq in Hy. rewrite Hy. apply String.eqb_neq in Hy.
  rewrite (rooted_app y "/" Hy), split_app_slash, fold_left_app.
  reflexivity.
Qed.

(** Cleaning a relative path gives the current directory or a relative
    path that is not longer. *)
Lemma Clean_relative y :
  y <> "" -> rooted y = false ->
  Clean y = "." \/
  (String.length (Clean y) <= String.length y /\ rooted (Clean y) = false).
Proof.
  intros Hy Hr. unfold Clean.
  apply String.eqb_neq in Hy. rewrite Hy, Hr.
  set (out := fold_left (clean_step false) (split y) []).
  destruct (join (rev out) =? "") eqn:E; [now left | right].
  assert (Hok : Forall element_ok (rev out)).
  { apply Forall_rev, clean_fold_ok; [constructor | apply split_unrooted]. }
  split; [|now apply rooted_join].
  assert (Hne : rev out <> []).
  { intros Hnil. rewrite Hnil in E. discriminate. }
  pose proof (weight_join (rev out) Hne) as Hj.
  pose proof (weight_clean_fold false (split y) []) as Hw.
  fold out in Hw. rewrite weight_rev in Hj. rewrite weight_split in Hw.
  simpl in Hw. lia.
Qed.

Lemma dir_prefix_cases p :
  dir_prefix p = "" \/
  exists y, dir_prefix p = y +:+ "/" /\ String.length y < String.length p.
Proof.
  induction p as [|c r IH]; [now left|]. simpl.
  destruct (dir_prefix r =? "") eqn:E.
  - apply String.eqb_eq in E. rewrite E.
    destruct (IsPathSeparator c) eqn:Ec; simpl; [right | now left].
    apply Ascii.eqb_eq in Ec. subst c. exists "". split; [reflexivity | simpl; lia].
  - simpl. right. destruct IH as [IH | (y & Hy & Hlen)].
    + rewrite IH in E. discriminate.
    + exists (String c y). rewrite Hy. split; [reflexivity | simpl; lia].
Qed.

Lemma rooted_dir_prefix p : dir_prefix p <> "" -> rooted (dir_prefix p) = rooted p.
Proof.
  destruct p as [|c r]; [reflexivity|]. simpl.
  destruct ((dir_prefix r =? "") && negb (IsPathSeparator c)); [congruence | reflexivity].
Qed.

(** The parent of a relative path is the current directory or a shorter
    relative path: the walk of [Exclude] ends. *)
Lemma Dir_relative p :
  rooted p = false ->
  Dir p = "." \/
  (String.length (Dir p) < String.length p /\ rooted (Dir p) = false).
Proof.
  intros Hr. unfold Dir.
  destruct (dir_prefix_cases p) as [E | (y & Hy & Hlen)].
  - rewrite E. now left.
  - assert (Hx : rooted (dir_prefix p) = false).
    { rewrite rooted_dir_prefix, Hr; [reflexivity|].
      rewrite Hy. destruct y; discriminate. }
    rewrite Hy in *.
    assert (Hne : y <> "").
    { intros ->. discriminate. }
    rewrite rooted_app in Hx by exact Hne.
    rewrite Clean_trailing_slash by exact Hne.
    destruct (Clean_relative y Hne Hx) as [H | [H1 H2]]; [now left | right].
    split; [lia | exact H2].
Qed.

(** [Base] never returns the empty string: [base[0]] is in range. *)
Lemma Base_not_empty p : Base p <> "".
Proof.
  unfold Base. destruct (p =? ""); [discriminate|].
  destruct (List.last (split (strip_trailing p)) "" =? "") eqn:E; [discriminate|].
  now apply String.eqb_neq in E.
Qed.

End PathFacts.

(** ** The exclusion policy *)

Section ExcludeFacts.

Context `{Externals}.

Import filepath.

Lemma Exclude_loop_root fuel s : site.Exclude_loop fuel s "." = Some false.
Proof. destruct fuel; reflexivity. Qed.

(** The loop ends on every path that does not start with a slash. *)
Lemma Exclude_loop_returns s n :
  forall p, rooted p = false -> String.length p <= n ->
  exists b, site.Exclude_loop (S n) s p = Some b.
Proof.
  induction n as [|n IH]; intros p Hr Hlen; simpl;
    (destruct (p =? "."); [now eexists|]);
    (destruct (MatchList _ p); [now eexists|]);
    (destruct (MatchList _ p); [now eexists|]);
    (destruct (negb (Dir p =? ".") && _); [now eexists|]);
    (destruct (site.excludeFileRE_MatchString _); [now eexists|]);
    destruct (Dir_relative p Hr) as [E | [Hlt Hr']].
  - rewrite E. now eexists.
  - lia.
  - rewrite E. now eexists.
  - apply IH; [exact Hr' | lia].
Qed.

Lemma Exclude_returns s p :
  rooted p = false -> exists b, site.Exclude s p = Some b.
Proof. intros Hr. now apply Exclude_loop_returns. Qed.

(** Once the loop has ended, more turns change nothing. *)
Lemma Exclude_loop_more_fuel s n :
  forall p b m, site.Exclude_loop n s p = Some b -> n <= m ->
  site.Exclude_loop m s p = Some b.
Proof.
  induction n as [|n IH]; intros p b m; simpl.
  - destruct (p =? ".") eqn:Hp; [|discriminate].
    intros Hb _. apply String.eqb_eq in Hp. subst p.
    rewrite Exclude_loop_root. exact Hb.
  - intros Hb Hm. destruct m as [|m]; [lia|]. simpl.
    destruct (p =? "."); [exact Hb|].
    destruct (MatchList (config.Include (site.config s)) p); [exact Hb|].
    destruct (MatchList (config.Exclude (site.config s)) p); [exact Hb|].
    destruct (negb (Dir p =? ".") && _); [exact Hb|].
    destruct (site.excludeFileRE_MatchString _); [exact Hb|].
    apply IH; [exact Hb | lia].
Qed.

(** The levels of a relative path reach the root: more turns add none. *)
Lemma levels_upto_complete n :
  forall p m, rooted p = false -> String.length p <= n -> S n <= m ->
  levels_upto m p = levels_upto (S n) p.
Proof.
  induction n as [|n IH]; intros p m Hr Hlen Hm;
    (destruct m as [|m]; [lia|]); simpl;
    (destruct (p =? "."); [reflexivity|]); f_equal;
    destruct (Dir_relative p Hr) as [E | [Hlt Hr']].
  - rewrite E. destruct m; reflexivity.
  - lia.
  - rewrite E. destruct m; reflexivity.
  - apply IH; [exact Hr' | lia | lia].
Qed.

(** When the loop ends, it ends with the verdict of the walk. *)
Lemma Exclude_loop_walk s n :
  forall p b, site.Exclude_loop n s p = Some b ->
  b = first_verdict (List.map (level_verdict s) (levels_upto n p)).
Proof.
  induction n as [|n IH]; intros p b; simpl.
  - destruct (p =? "."); [now intros [= <-] | discriminate].
  - destruct (p =? "."); [now intros [= <-]|].
    simpl. unfold level_verdict at 1.
    destruct (MatchList _ p); [now intros [= <-]|].
    destruct (MatchList _ p); [now intros [= <-]|].
    destruct (negb (Dir p =? ".") && _); [now intros [= <-]|].
    destruct (site.excludeFileRE_MatchString _); [now intros [= <-]|].
    apply IH.
Qed.

(** The first turn of the loop, on a path that is not the root. *)
Lemma Exclude_first_turn s p :
  (p =? ".") = false ->
  site.Exclude s p =
    match level_verdict s p with
    | Some b => Some b
    | None => site.Exclude_loop (String.length p) s (Dir p)
    end.
Proof.
  intros Hp. unfold site.Exclude, level_verdict. simpl. rewrite Hp.
  destruct (MatchList _ p); [reflexivity|].
  destruct (MatchList _ p); [reflexivity|].
  destruct (negb (Dir p =? ".") && _); [reflexivity|].
  destruct (site.excludeFileRE_MatchString _); reflexivity.
Qed.

Lemma junk_not_root p :
  site.excludeFileRE_MatchString (Base p) = true -> (p =? ".") = false.
Proof.
  intros Hj. destruct (p =? ".") eqn:E; [|reflexivity].
  apply String.eqb_eq in E. subst p. discriminate.
Qed.

(** C10.  Whatever the configuration and the pattern matcher, [Exclude (".")] is
    false: the loop runs only while the path differs from the root, so with
    any number of turns allowed no rule is evaluated on the root and the
    answer is "not excluded". *)
Theorem Exclude_root_never_excluded (s : site.Site) :
  site.Exclude s "." = Some false /\
  forall fuel, site.Exclude_loop fuel s "." = Some false.
Proof. split; [reflexivity | intros fuel; apply Exclude_loop_root]. Qed.

(** C2, as amended.  On every path that does not start with a slash
    [Exclude] returns, and returns the verdict of the walk from the path up
    to the root with the rules taken in their precedence at each level.  A
    top-level entry is not excluded by the underscore rule: without an
    exclude pattern and without a junk basename it is not excluded.  A nested
    entry whose basename starts with an underscore is excluded, and so is
    every path whose basename matches the junk-file pattern, unless the
    path itself matches an include pattern. *)
Theorem Exclude_is_the_walk (s : site.Site) :
  (forall p, rooted p = false -> site.Exclude s p = Some (Exclude_walk s p)) /\
  (forall p, Dir p = "." ->
     MatchList (config.Exclude (site.config s)) p = false ->
     site.excludeFileRE_MatchString (Base p) = false ->
     site.Exclude s p = Some false) /\
  (forall p, Dir p <> "." ->
     site.starts_with_underscore (Base p) = true ->
     MatchList (config.Include (site.config s)) p = false ->
     site.Exclude s p = Some true) /\
  (forall p, site.excludeFileRE_MatchString (Base p) = true ->
     MatchList (config.Include (site.config s)) p = false ->
     site.Exclude s p = Some true).
Proof.
  repeat split.
  - intros p Hr. destruct (Exclude_returns s p Hr) as [b Hb].
    rewrite Hb. f_equal. now apply Exclude_loop_walk.
  - intros p Hd Hex Hj.
    destruct (p =? ".") eqn:Hp.
    { apply String.eqb_eq in Hp. subst p. reflexivity. }
    rewrite Exclude_first_turn by exact Hp. unfold level_verdict.
    rewrite Hex, Hj, Hd. simpl.
    destruct (MatchList (config.Include (site.config s)) p);
      [reflexivity | apply Exclude_loop_root].
  - intros p Hd Hu Hin.
    assert (Hp : (p =? ".") = false).
    { apply String.eqb_neq. intros ->. now apply Hd. }
    rewrite Exclude_first_turn by exact Hp. unfold level_verdict.
    apply String.eqb_neq in Hd. rewrite Hin, Hu, Hd. simpl.
    destruct (MatchList (config.Exclude (site.config s)) p); reflexivity.
  - intros p Hj Hin.
    rewrite Exclude_first_turn by now apply junk_not_root.
    unfold level_verdict. rewrite Hin, Hj.
    destruct (MatchList (config.Exclude (site.config s)) p); [reflexivity|].
    destruct (negb (Dir p =? ".") && _); reflexivity.
Qed.

(** C3, as amended.  A path that itself matches an include pattern is not
    excluded, whatever else matches; a path other than the root that
    matches an exclude pattern and no include pattern is excluded, also
    when an include pattern matches one of its parents. *)
Theorem Exclude_include_wins_at_the_path (s : site.Site) (p : string) :
  (MatchList (config.Include (site.config s)) p = true ->
   site.Exclude s p = Some false) /\
  (p <> "." ->
   MatchList (config.Include (site.config s)) p = false ->
   MatchList (config.Exclude (site.config s)) p = true ->
   site.Exclude s p = Some true).
Proof.
  split.
  - intros Hin. destruct (p =? ".") eqn:Hp.
    { apply String.eqb_eq in Hp. subst p. reflexivity. }
    rewrite Exclude_first_turn by exact Hp.
    unfold level_verdict. now rewrite Hin.
  - intros Hp Hin Hex. apply String.eqb_neq in Hp.
    rewrite Exclude_first_turn by exact Hp.
    unfold level_verdict. now rewrite Hin, Hex.
Qed.

End ExcludeFacts.

Lemma Exclude_is_the_walk_witness :
  site.Exclude plain_site "sub/_drafts"
    = Some (Exclude_walk plain_site "sub/_drafts") /\
  site.Exclude plain_site "_posts" = Some false /\
  site.Exclude plain_site "sub/_drafts" = Some true /\
  site.Exclude plain_site "notes/draft~" = Some true.
Proof.
  destruct (Exclude_is_the_walk plain_site) as (H1 & H2 & H3 & H4).
  split; [apply H1; reflexivity|].
  split; [apply H2; reflexivity|].
  split; [apply H3; [discriminate | reflexivity | reflexivity]|].
  apply H4; reflexivity.
Defined.

(** C2 as stated fails: [.htaccess] has a junk basename, and a site that
    includes it does not exclude it. *)
Lemma junk_included_is_not_excluded :
  ~ junk_always_excluded htaccess_site ".htaccess".
Proof.
  unfold junk_always_excluded. intros Hc.
  specialize (Hc eq_refl). vm_compute in Hc. discriminate.
Qed.

Lemma Exclude_include_wins_at_the_path_witness :
  site.Exclude htaccess_site ".htaccess" = Some false /\
  site.Exclude nested_site "a/b" = Some true.
Proof.
  split.
  - apply (Exclude_include_wins_at_the_path htaccess_site ".htaccess").
    reflexivity.
  - apply (Exclude_include_wins_at_the_path nested_site "a/b");
      [discriminate | reflexivity | reflexivity].
Defined.

(** C3 as stated fails: an include pattern matches the level [a] of the
    walk of [a/b], an exclude pattern matches [a/b], and [a/b] is
    excluded. *)
Lemma include_above_does_not_win :
  ~ include_wins_at_any_level nested_site "a/b".
Proof.
  unfold include_wins_at_any_level. intros Hc.
  assert (E : site.Exclude nested_site "a/b" = Some false).
  { apply Hc.
    - exists "a". split; [right; left; reflexivity | reflexivity].
    - exists "a/b". split; [left; reflexivity | reflexivity]. }
  vm_compute in E. discriminate.
Qed.

(** ** The routing resolver *)

Section RoutingFacts.

Context `{Externals}.

Import pages.

Lemma Join_suffixed u : filepath.Join [u +:+ ".html"] = filepath.Clean (u +:+ ".html").
Proof. simpl. now rewrite app_not_empty by discriminate. Qed.

(** C1, as amended.  The revision with the extensionless fallback tries
    the exact path, the path joined with [index.html], the path joined
    with [index.htm] and the cleaned path of [urlpath + ".html"], in this
    order, the first key found in [Routes] winning and none found being
    "not found".  The revision of [site/site.go] stops after the two
    directory indexes.  When the suffixed path is already clean, the fourth
    key is the literal one, and a document found only there is returned. *)
Theorem URLPage_fallback_chain (s : site.Site) (u : string) :
  site_r2.URLPage s u = chain_cleaned s u /\
  site.URLPage s u = chain_index s u /\
  (filepath.Clean (u +:+ ".html") = u +:+ ".html" ->
   site_r2.URLPage s u = chain_literal s u) /\
  (forall d,
     filepath.Clean (u +:+ ".html") = u +:+ ".html" ->
     site.Routes s !! (u +:+ ".html") = Some d ->
     site.Routes s !! u = None ->
     site.Routes s !! filepath.Join [u; "index.html"] = None ->
     site.Routes s !! filepath.Join [u; "index.htm"] = None ->
     site_r2.URLPage s u = Some d).
Proof.
  unfold site_r2.URLPage, site.URLPage, chain_cleaned, chain_index, chain_literal.
  rewrite Join_suffixed.
  set (k2 := filepath.Join [u; "index.html"]).
  set (k3 := filepath.Join [u; "index.htm"]).
  set (k4 := filepath.Clean (u +:+ ".html")).
  clearbody k2 k3. simpl.
  repeat split.
  - destruct (site.Routes s !! u); simpl; [reflexivity|].
    destruct (site.Routes s !! k2); simpl; [reflexivity|].
    destruct (site.Routes s !! k3); simpl; [reflexivity|].
    destruct (site.Routes s !! k4); reflexivity.
  - destruct (site.Routes s !! u); simpl; [reflexivity|].
    destruct (site.Routes s !! k2); simpl; [reflexivity|].
    destruct (site.Routes s !! k3); reflexivity.
  - intros Hclean. subst k4. rewrite Hclean.
    destruct (site.Routes s !! u); simpl; [reflexivity|].
    destruct (site.Routes s !! k2); simpl; [reflexivity|].
    destruct (site.Routes s !! k3); simpl; [reflexivity|].
    destruct (site.Routes s !! (u +:+ ".html")); reflexivity.
  - intros d Hclean H4 H1 H2 H3. subst k4.
    rewrite Hclean, H1, H2, H3, H4. reflexivity.
Qed.

End RoutingFacts.

Lemma URLPage_fallback_chain_witness :
  site_r2.URLPage blog_site "/blog" = chain_literal blog_site "/blog" /\
  site_r2.URLPage blog_site "/blog" = Some (page "src/blog.html" "/blog.html").
Proof.
  destruct (URLPage_fallback_chain blog_site "/blog") as (_ & _ & H3 & H4).
  split; [apply H3; reflexivity|].
  apply H4; reflexivity.
Defined.

(** C1 as stated fails: with a route [a//b.html] and the path [a//b], the
    literal chain finds the document at its fourth key, and neither
    revision of [URLPage] does; and the revision of [site/site.go] does not
    find [/blog.html] for [/blog]. *)
Lemma URLPage_is_not_the_literal_chain :
  site_r2.URLPage doubled_slash_site "a//b" <> chain_literal doubled_slash_site "a//b" /\
  site.URLPage doubled_slash_site "a//b" <> chain_literal doubled_slash_site "a//b" /\
  site.URLPage blog_site "/blog" <> chain_literal blog_site "/blog".
Proof. repeat split; vm_compute; discriminate. Qed.

(** ** Documents by source path *)

Section SourcePathFacts.

Context `{Externals}.

Import pages.

Lemma relative_source_Some s d r :
  relative_source s d = Some r <->
  SourcePath d <> "" /\ Rel (site.SourceDir s) (SourcePath d) = Some r.
Proof.
  unfold relative_source. destruct (SourcePath d =? "") eqn:E.
  - apply String.eqb_eq in E. split; [discriminate | now intros [? _]].
  - apply String.eqb_neq in E. tauto.
Qed.

(** One step of the scan, by the relative path of the document met. *)
Lemma FilePathPage_range_cons s k p order rel :
  site.FilePathPage_range s ((k, p) :: order) rel =
    match relative_source s p with
    | Some r => if r =? rel then Some p else site.FilePathPage_range s order rel
    | None => site.FilePathPage_range s order rel
    end.
Proof.
  simpl. unfold relative_source. destruct (SourcePath p =? ""); reflexivity.
Qed.

(** What the scan returns is a document of the order that takes part
    under the path asked for. *)
Lemma FilePathPage_range_Some s order rel p :
  site.FilePathPage_range s order rel = Some p ->
  exists k, (k, p) ∈ order /\ relative_source s p = Some rel.
Proof.
  induction order as [|[k q] order IH]; [discriminate|].
  rewrite FilePathPage_range_cons.
  destruct (relative_source s q) as [r|] eqn:E.
  - destruct (r =? rel) eqn:Er.
    + intros [= ->]. apply String.eqb_eq in Er. subst r.
      exists k. split; [left | exact E].
    + intros Hs. destruct (IH Hs) as (k' & Hin & Hr).
      exists k'. split; [now right | exact Hr].
  - intros Hs. destruct (IH Hs) as (k' & Hin & Hr).
    exists k'. split; [now right | exact Hr].
Qed.

(** The scan misses only when no document of the order takes part under
    the path asked for. *)
Lemma FilePathPage_range_None s order rel :
  site.FilePathPage_range s order rel = None ->
  forall k p, (k, p) ∈ order -> relative_source s p <> Some rel.
Proof.
  induction order as [|[k q] order IH]; intros Hs k' p Hin.
  - inversion Hin.
  - rewrite FilePathPage_range_cons in Hs.
    apply elem_of_cons in Hin as [[= -> ->] | Hin].
    + destruct (relative_source s q) as [r|]; [|discriminate].
      destruct (r =? rel) eqn:Er; [discriminate|].
      apply String.eqb_neq in Er. congruence.
    + destruct (relative_source s q) as [r|].
      * destruct (r =? rel); [discriminate | now apply (IH Hs k')].
      * now apply (IH Hs k').
Qed.

Lemma range_order_lookup (m : gmap string Document) order k d :
  site.range_order m order -> ((k, d) ∈ order <-> m !! k = Some d).
Proof.
  unfold site.range_order. intros Hp. rewrite Hp.
  apply elem_of_map_to_list.
Qed.

(** C4, as amended.  In whatever order the routes are ranged over,
    [FilePathPage] returns only a document of [Routes] with a non-empty
    source path whose path relative to the source directory is the one
    asked for; and when no two documents of [Routes] have the same such
    relative path, resolving the relative source path of a document of
    [Routes] returns this very document. *)
Theorem FilePathPage_round_trip (s : site.Site) :
  (forall order rel d,
     site.range_order (site.Routes s) order ->
     site.FilePathPage order s rel = Some d ->
     SourcePath d <> "" /\
     Rel (site.SourceDir s) (SourcePath d) = Some rel /\
     exists k, site.Routes s !! k = Some d) /\
  (unique_sources s -> FilePathPage_roundtrip s).
Proof.
  split.
  - intros order rel d Ho Hs.
    apply FilePathPage_range_Some in Hs as (k & Hin & Hr).
    apply relative_source_Some in Hr as [Hne Hr].
    repeat split; [exact Hne | exact Hr |].
    exists k. now apply (range_order_lookup (site.Routes s) order k d Ho).
  - intros Hu order k d r Ho Hk Hne Hr.
    destruct (site.FilePathPage order s r) as [p|] eqn:Hs; unfold site.FilePathPage in Hs.
    + f_equal.
      apply FilePathPage_range_Some in Hs as (k' & Hin & Hr').
      apply (range_order_lookup (site.Routes s) order k' p Ho) in Hin.
      apply (Hu k' p k d r); [exact Hin | exact Hk | exact Hr' |].
      now apply relative_source_Some.
    + exfalso. apply (FilePathPage_range_None s order r Hs k d).
      * now apply (range_order_lookup (site.Routes s) order k d Ho).
      * now apply relative_source_Some.
Qed.

End SourcePathFacts.

Lemma two_pages_routes k d :
  site.Routes two_pages_site !! k = Some d ->
  d = page "src/a.md" "/a/" \/ d = page "src/b.md" "/b/".
Proof.
  unfold two_pages_site, site_of. simpl. intros Hk.
  apply lookup_insert_Some in Hk as [[_ <-] | [_ Hk]]; [now left|].
  apply lookup_singleton_Some in Hk as [_ <-]. now right.
Qed.

Lemma two_pages_unique : unique_sources two_pages_site.
Proof.
  intros k1 d1 k2 d2 r H1 H2 R1 R2.
  apply two_pages_routes in H1 as [-> | ->];
    apply two_pages_routes in H2 as [-> | ->];
    try reflexivity; vm_compute in R1, R2; congruence.
Qed.

Lemma FilePathPage_round_trip_witness :
  site.FilePathPage (map_to_list (site.Routes two_pages_site)) two_pages_site "a.md"
    = Some (page "src/a.md" "/a/").
Proof.
  apply (proj2 (FilePathPage_round_trip two_pages_site) two_pages_unique
           (map_to_list (site.Routes two_pages_site)) "/a/").
  - unfold site.range_order. reflexivity.
  - reflexivity.
  - discriminate.
  - reflexivity.
Defined.

(** C4 as stated fails: two routes lead to two documents made from the
    source file [src/x.md]; whatever the order of the scan, resolving
    [x.md] returns one document, which cannot be both. *)
Lemma FilePathPage_twins_do_not_round_trip :
  ~ FilePathPage_roundtrip twin_site.
Proof.
  intros Hc.
  assert (Ha := Hc (map_to_list (site.Routes twin_site)) "/a/"
                  (page "src/x.md" "/a/") "x.md").
  assert (Hb := Hc (map_to_list (site.Routes twin_site)) "/b/"
                  (page "src/x.md" "/b/") "x.md").
  assert (Ho : site.range_order (site.Routes twin_site)
                 (map_to_list (site.Routes twin_site)))
    by (unfold site.range_order; reflexivity).
  specialize (Ha Ho eq_refl). specialize (Hb Ho eq_refl).
  assert (Hne : "src/x.md" <> "") by discriminate.
  specialize (Ha Hne eq_refl). specialize (Hb Hne eq_refl).
  rewrite Ha in Hb. discriminate.
Qed.

(** ** The URLs of the file names *)

Section FilenameFacts.

Context `{Externals}.

Import pages.

(** After the loop, a key holds the permalink of the last page that wrote
    it, or what it held before the loop. *)
Lemma FilenameURLs_range_lookup s ps :
  forall urls m,
    site.FilenameURLs_range s ps urls = Returns m ->
    forall k, m !! k =
      match last_url s ps k with
      | Some u => Some u
      | None => urls !! k
      end.
Proof.
  induction ps as [|p ps IH]; intros urls m Hm k; simpl in *.
  - now injection Hm as <-.
  - destruct (MustRel (site.SourceDir s) (SourcePath p)) as [r|]; [|discriminate].
    rewrite (IH _ _ Hm k).
    destruct (last_url s ps k); [reflexivity|].
    destruct (r =? k) eqn:E.
    + apply String.eqb_eq in E. subst r. apply lookup_insert_eq.
    + apply String.eqb_neq in E. now apply lookup_insert_ne.
Qed.

(** The loop returns when every source path can be made relative. *)
Lemma FilenameURLs_range_returns s ps :
  Forall (relativizable s) ps ->
  forall urls, exists m, site.FilenameURLs_range s ps urls = Returns m.
Proof.
  induction 1 as [|p ps [r Hr] _ IH]; intros urls; simpl.
  - now eexists.
  - rewrite Hr. apply IH.
Qed.

(** C5, as amended.  [FilenameURLPath] is [FilePathPage] followed by the
    permalink of the document found.  [FilenameURLs] ranges over the pages
    of the document list, output or not, and not over [Routes]: when the
    source path of each of these pages can be made relative to the source
    directory ([MustRel] returns) it returns a map, and the map it returns
    holds at a key the permalink of the last page of the list whose
    relative source path is the key, and nothing at the other keys. *)
Theorem FilenameURLs_by_pages (s : site.Site) :
  (forall order r url,
     site.FilenameURLPath order s r = Some url <->
     exists d, site.FilePathPage order s r = Some d /\ url = Permalink d) /\
  (forall order r,
     site.FilenameURLPath order s r = None <->
     site.FilePathPage order s r = None) /\
  (Forall (relativizable s) (site.Pages s) ->
   exists m, site.FilenameURLs s = Returns m) /\
  (forall m, site.FilenameURLs s = Returns m ->
     forall k, m !! k = last_url s (site.Pages s) k).
Proof.
  repeat split.
  - unfold site.FilenameURLPath.
    destruct (site.FilePathPage order s r) as [d|]; [|discriminate].
    intros [= <-]. now exists d.
  - intros (d & Hd & ->). unfold site.FilenameURLPath. now rewrite Hd.
  - unfold site.FilenameURLPath.
    destruct (site.FilePathPage order s r); [discriminate | reflexivity].
  - unfold site.FilenameURLPath. now intros ->.
  - intros Hall. now apply FilenameURLs_range_returns.
  - intros m Hm k. rewrite (FilenameURLs_range_lookup _ _ _ _ Hm k).
    destruct (last_url s (site.Pages s) k); [reflexivity | apply lookup_empty].
Qed.

End FilenameFacts.

Lemma FilenameURLs_by_pages_witness :
  (exists m, site.FilenameURLs unpublished_site = Returns m) /\
  site.FilenameURLPath (map_to_list (site.Routes two_pages_site)) two_pages_site "b.md"
    = Some "/b/".
Proof.
  split.
  - apply (FilenameURLs_by_pages unpublished_site).
    repeat constructor. now exists "a.md".
  - apply (FilenameURLs_by_pages two_pages_site).
    exists (page "src/b.md" "/b/"). split; reflexivity.
Defined.

(** C5 as stated fails: a page that has no route is a key of
    [FilenameURLs], and [FilenameURLPath] does not find it. *)
Lemma FilenameURLs_knows_unpublished_pages :
  ~ FilenameURLs_agree unpublished_site.
Proof.
  intros Hc.
  destruct (site.FilenameURLs unpublished_site) as [m|] eqn:Hm; [|discriminate].
  assert (Hk : m !! "a.md" = Some "/a/").
  { rewrite (FilenameURLs_range_lookup _ _ _ _ Hm "a.md"). reflexivity. }
  assert (Ho : site.range_order (site.Routes unpublished_site) []).
  { unfold site.range_order. simpl. now rewrite map_to_list_empty. }
  apply (Hc [] m "a.md" "/a/" Ho Hm) in Hk. discriminate.
Qed.

(** ** The rendering manager, the absolute URL and the hooks *)

Section ManagerFacts.

Context `{Externals}.

(** C7.  With the renderer still nil, [RendererManager] panics with
    "uninitialized rendering manager" and returns no value; with the
    renderer set, it returns it. *)
Theorem RendererManager_panics_when_nil (s : site.Site) :
  (site.renderer s = None ->
   site.RendererManager s = Panics "uninitialized rendering manager") /\
  (forall m, site.renderer s = Some m -> site.RendererManager s = Returns m).
Proof.
  unfold site.RendererManager. split.
  - now intros ->.
  - now intros m ->.
Qed.

Lemma SetAbsoluteURL_effect_of_insert s url vars s' :
  config.Variables (site.config s) = Some vars ->
  config.AbsoluteURL (site.config s') = url ->
  config.Variables (site.config s') = Some (<["url" := AnyString url]> vars) ->
  site.drop s' = (fun d => <["url" := AnyString url]> d) <$> site.drop s ->
  site.Routes s' = site.Routes s ->
  site.Collections s' = site.Collections s ->
  site.docs s' = site.docs s ->
  site.nonCollectionPages s' = site.nonCollectionPages s ->
  site.data s' = site.data s ->
  site.flags s' = site.flags s ->
  site.themeDir s' = site.themeDir s ->
  site.renderer s' = site.renderer s ->
  site.renderOnce s' = site.renderOnce s ->
  site.dropOnce s' = site.dropOnce s ->
  config.Source (site.config s') = config.Source (site.config s) ->
  config.Destination (site.config s') = config.Destination (site.config s) ->
  config.Include (site.config s') = config.Include (site.config s) ->
  config.Exclude (site.config s') = config.Exclude (site.config s) ->
  config.KeepFiles (site.config s') = config.KeepFiles (site.config s) ->
  config.Plugins (site.config s') = config.Plugins (site.config s) ->
  SetAbsoluteURL_effect s url s'.
Proof.
  intros Hv Hu Hv' Hd. intros.
  unfold SetAbsoluteURL_effect, config.variable. rewrite Hv, Hv', Hd.
  split; [exact Hu|].
  split; [apply lookup_insert_eq|].
  split; [intros k Hk; now apply lookup_insert_ne|].
  split; [now intros ->|].
  split; [|repeat split; assumption].
  intros d ->. exists (<["url" := AnyString url]> d).
  split; [reflexivity|]. split; [apply lookup_insert_eq|].
  intros k Hk. now apply lookup_insert_ne.
Qed.

(** C8, as amended.  On a site whose configuration has its map of
    variables allocated, [SetAbsoluteURL (url)] runs to its end and sets
    the absolute URL of the configuration and its [url] variable to [url]; a
    drop that is nil stays nil, a cached drop gets [url] at its [url] entry
    and keeps its other entries; the other variables and fields of the
    configuration and the other fields of the site are unchanged.  This
    holds of both revisions.  On a nil map of variables the assignment of
    [site/site.go] panics, after the absolute URL was set and before the
    drop is touched. *)
Theorem SetAbsoluteURL_frame (s : site.Site) (url : string) :
  (config.Variables (site.config s) <> None ->
   SetAbsoluteURL_sets s url /\
   SetAbsoluteURL_effect s url (site_r2.SetAbsoluteURL s url)) /\
  (config.Variables (site.config s) = None ->
   site.SetAbsoluteURL s url =
     PanicsAt "assignment to entry in nil map"
       (site.set_config s (config.set_AbsoluteURL (site.config s) url))).
Proof.
  split.
  - destruct (config.Variables (site.config s)) as [vars|] eqn:Hv;
      [intros _ | congruence].
    split.
    + unfold SetAbsoluteURL_sets, site.SetAbsoluteURL, config.set_Variable.
      simpl. rewrite Hv.
      destruct (site.drop s) as [d|] eqn:Hd; simpl;
        eexists; (split; [reflexivity|]);
        apply (SetAbsoluteURL_effect_of_insert s url vars);
        simpl; rewrite ?Hd; auto.
    + unfold site_r2.SetAbsoluteURL, config.Set_. simpl. rewrite Hv.
      destruct (site.drop s) as [d|] eqn:Hd;
        apply (SetAbsoluteURL_effect_of_insert s url vars);
        simpl; rewrite ?Hd; auto.
  - intros Hv. unfold site.SetAbsoluteURL, config.set_Variable. simpl.
    now rewrite Hv.
Qed.

Lemma omap_cons_Some (names : list string) name p :
  Lookup name = Some p -> resolved (name :: names) = p :: resolved names.
Proof. intros Hl. unfold resolved. simpl. now rewrite Hl. Qed.

Lemma omap_cons_None (names : list string) name :
  Lookup name = None -> resolved (name :: names) = resolved names.
Proof. intros Hl. unfold resolved. simpl. now rewrite Hl. Qed.

(** C9.  [runHooks] goes through the configured names in their order.  The
    names that the registry resolves give the plugins [invoked ++ rest];
    the others are skipped.  The callback is invoked on the plugins of
    [invoked], in this order, and on no other.  Either every call returned
    nil, no plugin is left and [runHooks] returns nil; or [runHooks]
    returns the error of the last call, the first one that did not return
    nil, and the plugins of [rest] are not invoked. *)
Theorem runHooks_first_error {St : Type} (s : site.Site)
    (h : Plugin -> St -> option error * St) (st : St) :
  exists invoked rest e st',
    resolved (config.Plugins (site.config s)) = invoked ++ rest /\
    site.runHooks s (logged h) (st, []) = (e, (st', invoked)) /\
    site.runHooks s h st = (e, st') /\
    match e with
    | None => rest = [] /\ all_nil h invoked st = Some st'
    | Some err =>
        exists pre p st_mid,
          invoked = pre ++ [p] /\
          all_nil h pre st = Some st_mid /\
          h p st_mid = (Some err, st')
    end.
Proof.
  assert (Hgen : forall names st log,
    exists invoked rest e st',
      resolved names = invoked ++ rest /\
      site.runHooks_range (logged h) names (st, log) = (e, (st', log ++ invoked)) /\
      site.runHooks_range h names st = (e, st') /\
      match e with
      | None => rest = [] /\ all_nil h invoked st = Some st'
      | Some err =>
          exists pre p st_mid,
            invoked = pre ++ [p] /\
            all_nil h pre st = Some st_mid /\
            h p st_mid = (Some err, st')
      end).
  { induction names as [|name names IH]; intros st0 log.
    - exists [], [], None, st0. simpl. rewrite app_nil_r. auto.
    - destruct (Lookup name) as [p|] eqn:Hl.
      + rewrite (omap_cons_Some _ _ _ Hl). simpl. rewrite Hl.
        unfold logged at 1. simpl.
        destruct (h p st0) as [[err|] st1] eqn:Hh.
        * exists [p], (resolved names), (Some err), st1.
          repeat split. exists [], p, st0. auto.
        * destruct (IH st1 (log ++ [p]))
            as (invoked & rest & e & st' & Hres & Hlog & Hrun & He).
          exists (p :: invoked), rest, e, st'.
          split; [now rewrite Hres|].
          split; [rewrite Hlog; now rewrite <- app_assoc|].
          split; [exact Hrun|].
          destruct e as [err|].
          -- destruct He as (pre & q & st_mid & -> & Hpre & Hq).
             exists (p :: pre), q, st_mid. simpl. rewrite Hh. auto.
          -- destruct He as [-> Hall]. simpl. rewrite Hh. auto.
      + rewrite (omap_cons_None _ _ Hl). simpl. rewrite Hl. apply IH. }
  apply (Hgen (config.Plugins (site.config s)) st []).
Qed.

End ManagerFacts.

Lemma RendererManager_panics_when_nil_witness :
  site.RendererManager plain_site = Panics "uninitialized rendering manager" /\
  site.RendererManager ready_site = Returns 7.
Proof.
  split.
  - apply (RendererManager_panics_when_nil plain_site). reflexivity.
  - apply (RendererManager_panics_when_nil ready_site). reflexivity.
Defined.

(** On a path that starts with a slash the loop of [Exclude] may never
    end: the parent of the root directory is the root directory. *)
Lemma Exclude_absolute_never_returns fuel :
  site.Exclude_loop fuel plain_site "/" = None.
Proof. induction fuel as [|fuel IH]; [reflexivity | exact IH]. Qed.

Example runHooks_ex1 :
  site.runHooks plugins_site (logged (failing_on "jekyll-feed")) (0, [])
    = (Some "failed", (1, ["jekyll-feed"])).
Proof. reflexivity. Qed.

Example runHooks_ex2 :
  site.runHooks plugins_site (logged (failing_on "jekyll-missing")) (0, [])
    = (None, (2, ["jekyll-feed"; "jekyll-sitemap"])).
Proof. reflexivity. Qed.

Example SetAbsoluteURL_ex1 :
  site.drop (left_by (site.SetAbsoluteURL ready_site "http://localhost:4000"))
    = Some (<["url" := AnyString "http://localhost:4000"]>
              {[ "title" := AnyString "Home" ]}) /\
  site.drop (left_by (site.SetAbsoluteURL plain_site "http://localhost:4000"))
    = None.
Proof. split; reflexivity. Qed.

Lemma SetAbsoluteURL_frame_witness :
  SetAbsoluteURL_sets ready_site "http://localhost:4000" /\
  site.SetAbsoluteURL nil_variables_site "http://localhost:4000" =
    PanicsAt "assignment to entry in nil map"
      (site.set_config nil_variables_site
         (config.set_AbsoluteURL (site.config nil_variables_site)
            "http://localhost:4000")).
Proof.
  destruct (SetAbsoluteURL_frame ready_site "http://localhost:4000") as [H1 _].
  destruct (SetAbsoluteURL_frame nil_variables_site "http://localhost:4000")
    as [_ H2].
  split; [apply H1; discriminate | apply H2; reflexivity].
Defined.

(** C8 as stated fails: on a site whose map of variables is nil and whose
    drop is cached, [SetAbsoluteURL] panics at the assignment of the
    variable; the [url] entry of the drop is not set. *)
Lemma SetAbsoluteURL_panics_on_nil_variables :
  ~ SetAbsoluteURL_sets nil_variables_site "http://localhost:4000" /\
  site.drop (left_by (site.SetAbsoluteURL nil_variables_site "http://localhost:4000"))
    = Some {[ "title" := AnyString "Home" ]}.
Proof.
  split; [|reflexivity].
  intros (s' & Hs & _). vm_compute in Hs. discriminate.
Qed.

(** ** More on the paths *)

Section MorePathFacts.

Import filepath.

(** [Clean] keeps a path absolute or relative. *)
Lemma rooted_Clean p : rooted (Clean p) = rooted p.
Proof.
  destruct (string_dec p "") as [-> | Hne]; [reflexivity|].
  destruct (rooted p) eqn:Hr.
  - unfold Clean. apply String.eqb_neq in Hne. rewrite Hne, Hr. reflexivity.
  - destruct (Clean_relative p Hne Hr) as [-> | [_ H]]; [reflexivity | exact H].
Qed.

Lemma rooted_Dir p : rooted p = true -> rooted (Dir p) = true.
Proof.
  intros Hr. unfold Dir. rewrite rooted_Clean.
  destruct p as [|c r]; [discriminate|]. simpl in *. rewrite Hr.
  rewrite andb_false_r. exact Hr.
Qed.

(** A slash that ends the first element of [Join] is of no effect. *)
Lemma Join_trailing_slash u f :
  u <> "" -> Join [u +:+ "/"; f] = Join [u; f].
Proof.
  intros Hu. simpl.
  rewrite app_not_empty by discriminate.
  apply String.eqb_neq in Hu. rewrite Hu. apply String.eqb_neq in Hu.
  unfold Clean.
  rewrite !app_not_empty by discriminate.
  replace (rooted ((u +:+ "/") +:+ "/" +:+ f)) with (rooted u)
    by (destruct u; [congruence | reflexivity]).
  replace (rooted (u +:+ "/" +:+ f)) with (rooted u)
    by (destruct u; [congruence | reflexivity]).
  change ("/" +:+ f) with (String "/" f).
  rewrite !split_app_slash. change (split "") with [""].
  rewrite <- !app_assoc, !fold_left_app. reflexivity.
Qed.

End MorePathFacts.

(** ** More on the routing resolver *)

Section MoreRoutingFacts.

Context `{Externals}.

Import pages.

(** X1.  The extensionless fallback only adds answers: what the
    revision of [site/site.go] finds, the revision with the fallback finds
    too, and where the first misses, the second answers with the route of
    the cleaned path of [urlpath + ".html"], if there is one. *)
Theorem URLPage_fallback_extends (s : site.Site) (u : string) :
  (forall d, site.URLPage s u = Some d -> site_r2.URLPage s u = Some d) /\
  (site.URLPage s u = None ->
   site_r2.URLPage s u = site.Routes s !! filepath.Clean (u +:+ ".html")).
Proof.
  unfold site_r2.URLPage, site.URLPage. rewrite Join_suffixed.
  set (k2 := filepath.Join [u; "index.html"]).
  set (k3 := filepath.Join [u; "index.htm"]).
  clearbody k2 k3. simpl.
  destruct (site.Routes s !! u); simpl; [split; [auto | discriminate]|].
  destruct (site.Routes s !! k2); simpl; [split; [auto | discriminate]|].
  destruct (site.Routes s !! k3); simpl; [split; [auto | discriminate]|].
  split; [discriminate | reflexivity].
Qed.

(** X2.  A path and the same path with a slash after it resolve alike,
    when neither is itself a route: the directory indexes looked up are the
    same.  (The path must not be empty: the empty path asks for
    [index.html], the path [/] for [/index.html].) *)
Theorem URLPage_trailing_slash (s : site.Site) (u : string) :
  u <> "" ->
  site.Routes s !! u = None ->
  site.Routes s !! (u +:+ "/") = None ->
  site.URLPage s (u +:+ "/") = site.URLPage s u.
Proof.
  intros Hu H1 H2. unfold site.URLPage.
  rewrite !Join_trailing_slash by exact Hu.
  now rewrite H1, H2.
Qed.

End MoreRoutingFacts.

Lemma URLPage_fallback_extends_witness :
  site_r2.URLPage blog_index_site "/blog"
    = Some (page "src/blog/index.md" "/blog/index.html") /\
  site_r2.URLPage blog_site "/blog" = Some (page "src/blog.html" "/blog.html").
Proof.
  split.
  - apply (URLPage_fallback_extends blog_index_site "/blog"). reflexivity.
  - rewrite (proj2 (URLPage_fallback_extends blog_site "/blog")); reflexivity.
Defined.

Lemma URLPage_trailing_slash_witness :
  site.URLPage blog_index_site "/blog/" = site.URLPage blog_index_site "/blog".
Proof.
  apply (URLPage_trailing_slash blog_index_site "/blog");
    [discriminate | reflexivity | reflexivity].
Defined.

(** ** More on the exclusion policy *)

Section MoreExcludeFacts.

Context `{Externals}.

Import filepath.

Lemma Exclude_loop_turn s fuel p :
  (p =? ".") = false ->
  site.Exclude_loop (S fuel) s p =
    match level_verdict s p with
    | Some b => Some b
    | None => site.Exclude_loop fuel s (Dir p)
    end.
Proof.
  intros Hp. unfold level_verdict. simpl. rewrite Hp.
  destruct (MatchList (config.Include (site.config s)) p); [reflexivity|].
  destruct (MatchList (config.Exclude (site.config s)) p); [reflexivity|].
  destruct (negb (Dir p =? ".") && _); [reflexivity|].
  destruct (site.excludeFileRE_MatchString _); reflexivity.
Qed.

Lemma rooted_not_root p : rooted p = true -> (p =? ".") = false.
Proof.
  intros Hr. apply String.eqb_neq. intros ->. discriminate.
Qed.

(** X3.  On a path that starts with a slash the walk never reaches the
    root [.]: when [Exclude] returns, its answer is the verdict of the
    first level of the walk of the path at which a rule fires, no rule firing
    at the levels below it, and this level is an absolute path. *)
Theorem Exclude_absolute_answer (s : site.Site) (fuel : nat) :
  forall p b,
    rooted p = true ->
    site.Exclude_loop fuel s p = Some b ->
    exists below level above,
      levels_upto fuel p = below ++ level :: above /\
      Forall (fun l => level_verdict s l = None) below /\
      level_verdict s level = Some b /\
      rooted level = true.
Proof.
  induction fuel as [|fuel IH]; intros p b Hr Hb.
  - simpl in Hb. rewrite (rooted_not_root p Hr) in Hb. discriminate.
  - rewrite Exclude_loop_turn in Hb by now apply rooted_not_root.
    simpl. rewrite (rooted_not_root p Hr).
    destruct (level_verdict s p) as [b'|] eqn:Hv.
    + exists [], p, (levels_upto fuel (Dir p)).
      repeat split; [constructor | congruence | exact Hr].
    + destruct (IH (Dir p) b (rooted_Dir p Hr) Hb)
        as (below & level & above & Hl & Hnone & Hlevel & Hrl).
      exists (p :: below), level, above. rewrite Hl.
      repeat split; [now constructor | exact Hlevel | exact Hrl].
Qed.

(** X4.  [Exclude ("/")] never returns, unless an include or an exclude
    pattern matches [/]: the parent of [/] is [/], and no other rule
    fires on it. *)
Theorem Exclude_slash_never_returns (s : site.Site) :
  MatchList (config.Include (site.config s)) "/" = false ->
  MatchList (config.Exclude (site.config s)) "/" = false ->
  forall fuel, site.Exclude_loop fuel s "/" = None.
Proof.
  intros Hin Hex. induction fuel as [|fuel IH]; [reflexivity|].
  rewrite Exclude_loop_turn by reflexivity.
  unfold level_verdict. rewrite Hin, Hex. exact IH.
Qed.

(** X5.  On a relative path other than the root at which no rule fires,
    [Exclude] answers as it does on the parent directory; so an entry of an
    excluded directory is excluded, unless the entry itself matches an
    include pattern. *)
Theorem Exclude_follows_parent (s : site.Site) (p : string) :
  rooted p = false -> p <> "." ->
  (level_verdict s p = None -> site.Exclude s p = site.Exclude s (Dir p)) /\
  (MatchList (config.Include (site.config s)) p = false ->
   site.Exclude s (Dir p) = Some true ->
   site.Exclude s p = Some true).
Proof.
  intros Hr Hp. apply String.eqb_neq in Hp.
  assert (Heq : level_verdict s p = None ->
                site.Exclude s p = site.Exclude s (Dir p)).
  { intros Hv. rewrite Exclude_first_turn by exact Hp. rewrite Hv.
    destruct (Dir_relative p Hr) as [E | [Hlt Hr']].
    - rewrite E. now rewrite Exclude_loop_root.
    - destruct (Exclude_returns s (Dir p) Hr') as [b Hb].
      rewrite Hb. apply (Exclude_loop_more_fuel s _ _ _ _ Hb). lia. }
  split; [exact Heq|].
  intros Hin Hd.
  destruct (level_verdict s p) as [b|] eqn:Hv.
  - rewrite Exclude_first_turn by exact Hp. rewrite Hv.
    unfold level_verdict in Hv. rewrite Hin in Hv.
    destruct (MatchList (config.Exclude (site.config s)) p); [congruence|].
    destruct (negb (Dir p =? ".") && _); [congruence|].
    destruct (site.excludeFileRE_MatchString _); [congruence | discriminate].
  - now rewrite Heq.
Qed.

End MoreExcludeFacts.

Lemma Exclude_absolute_answer_witness :
  site.Exclude plain_site "/a/.git/config" = Some true /\
  exists below level above,
    levels "/a/.git/config" = below ++ level :: above /\
    Forall (fun l => level_verdict plain_site l = None) below /\
    level_verdict plain_site level = Some true /\
    filepath.rooted level = true.
Proof.
  split; [reflexivity|].
  apply (Exclude_absolute_answer plain_site
           (S (String.length "/a/.git/config")) "/a/.git/config" true);
    reflexivity.
Defined.

Lemma Exclude_slash_never_returns_witness :
  site.Exclude plain_site "/" = None.
Proof.
  apply (Exclude_slash_never_returns plain_site); reflexivity.
Defined.

Lemma Exclude_follows_parent_witness :
  site.Exclude plain_site ".git/config" = Some true /\
  site.Exclude plain_site "a/b" = site.Exclude plain_site "a".
Proof.
  split.
  - apply (Exclude_follows_parent plain_site ".git/config");
      [reflexivity | discriminate | reflexivity | reflexivity].
  - apply (Exclude_follows_parent plain_site "a/b");
      [reflexivity | discriminate | reflexivity].
Defined.

(** ** More on the documents by source path *)

Section MoreSourcePathFacts.

Context `{Externals}.

Import pages.

(** X6.  Whether [FilePathPage] finds a document does not depend on the
    order in which the routes are ranged over: it finds one exactly when
    some document of [Routes] has a non-empty source path whose path
    relative to the source directory is the path asked for. *)
Theorem FilePathPage_found_iff (s : site.Site) (order : list (string * Document))
    (rel : string) :
  site.range_order (site.Routes s) order ->
  ((exists d, site.FilePathPage order s rel = Some d) <->
   (exists k d, site.Routes s !! k = Some d /\
                SourcePath d <> "" /\
                Rel (site.SourceDir s) (SourcePath d) = Some rel)).
Proof.
  intros Ho. split.
  - intros [d Hd]. apply FilePathPage_range_Some in Hd as (k & Hin & Hr).
    apply relative_source_Some in Hr as [Hne Hr].
    exists k, d. repeat split; [|exact Hne | exact Hr].
    now apply (range_order_lookup (site.Routes s) order k d Ho).
  - intros (k & d & Hk & Hne & Hr).
    destruct (site.FilePathPage order s rel) as [p|] eqn:Hs; [now exists p|].
    exfalso. apply (FilePathPage_range_None s order rel Hs k d).
    + now apply (range_order_lookup (site.Routes s) order k d Ho).
    + now apply relative_source_Some.
Qed.

(** X7.  [FilenameURLs] panics exactly when [utils.MustRel] panics on the
    source path of one of the pages of the document list, and then with
    the panic of the first such page; the documents that are not pages
    and the routes play no part. *)
Theorem FilenameURLs_panics_iff (s : site.Site) (msg : string) :
  site.FilenameURLs s = Panics msg <->
  exists ps1 p ps2,
    site.Pages s = ps1 ++ p :: ps2 /\
    Forall (relativizable s) ps1 /\
    MustRel (site.SourceDir s) (SourcePath p) = Panics msg.
Proof.
  unfold site.FilenameURLs. generalize (∅ : gmap string string) as urls.
  induction (site.Pages s) as [|q ps IH]; intros urls; simpl.
  - split; [discriminate|]. intros (ps1 & p & ps2 & E & _). now destruct ps1.
  - destruct (MustRel (site.SourceDir s) (SourcePath q)) as [k|msg'] eqn:Hq.
    + rewrite IH. split.
      * intros (ps1 & p & ps2 & -> & Hall & Hp).
        exists (q :: ps1), p, ps2. repeat split; [|exact Hp].
        constructor; [now exists k | exact Hall].
      * intros (ps1 & p & ps2 & E & Hall & Hp).
        destruct ps1 as [|q' ps1]; simpl in E; injection E as <- ->.
        -- congruence.
        -- exists ps1, p, ps2. inversion Hall; subst. auto.
    + split.
      * intros [= <-]. exists [], q, ps. repeat split; [constructor | exact Hq].
      * intros (ps1 & p & ps2 & E & Hall & Hp).
        destruct ps1 as [|q' ps1]; simpl in E; injection E as <- ->.
        -- congruence.
        -- inversion Hall as [|? ? [k Hk] _]; subst. congruence.
Qed.

End MoreSourcePathFacts.

Lemma FilePathPage_found_iff_witness :
  exists d,
    site.FilePathPage (map_to_list (site.Routes two_pages_site))
      two_pages_site "b.md" = Some d.
Proof.
  apply (FilePathPage_found_iff two_pages_site).
  - unfold site.range_order. reflexivity.
  - exists "/b/", (page "src/b.md" "/b/").
    split; [reflexivity|]. split; [discriminate | reflexivity].
Defined.

(** ** More on the absolute URL *)

Section MoreURLFacts.

Context `{Externals}.

Lemma SetAbsoluteURL_left_fields (s : site.Site) (url : string) :
  let s' := left_by (site.SetAbsoluteURL s url) in
  site.Routes s' = site.Routes s /\
  site.docs s' = site.docs s /\
  config.Source (site.config s') = config.Source (site.config s) /\
  config.Destination (site.config s') = config.Destination (site.config s) /\
  config.Include (site.config s') = config.Include (site.config s) /\
  config.Exclude (site.config s') = config.Exclude (site.config s).
Proof.
  unfold site.SetAbsoluteURL, config.set_Variable. simpl.
  destruct (config.Variables (site.config s)); simpl;
    [destruct (site.drop s)|]; simpl; repeat split.
Qed.

(** X8.  Of two calls of [SetAbsoluteURL] the last one wins: calling it on
    the site that a first call left behind, whether that call ran to its
    end or panicked, gives what the last call alone gives. *)
Theorem SetAbsoluteURL_last_wins (s : site.Site) (url1 url2 : string) :
  site.SetAbsoluteURL (left_by (site.SetAbsoluteURL s url1)) url2
    = site.SetAbsoluteURL s url2.
Proof.
  unfold site.SetAbsoluteURL, site.set_config, site.set_drop,
    config.set_Variable, config.set_AbsoluteURL. simpl.
  destruct (config.Variables (site.config s)) as [vars|]; simpl;
    [|reflexivity].
  destruct (site.drop s) as [d|]; simpl;
    rewrite ?insert_insert_eq; reflexivity.
Qed.

(** X9.  [SetAbsoluteURL] changes no answer of the resolvers: on the site
    that the call leaves behind, whether it ran to its end or panicked, the
    page of a URL, the document of a file path, the URLs of the file names,
    the exclusion of a path and the destination directory are those of the
    site before the call. *)
Theorem SetAbsoluteURL_keeps_answers (s : site.Site) (url : string) :
  let s' := left_by (site.SetAbsoluteURL s url) in
  (forall u, site.URLPage s' u = site.URLPage s u) /\
  (forall u, site_r2.URLPage s' u = site_r2.URLPage s u) /\
  (forall order rel, site.FilePathPage order s' rel = site.FilePathPage order s rel) /\
  site.FilenameURLs s' = site.FilenameURLs s /\
  (forall p, site.Exclude s' p = site.Exclude s p) /\
  site.DestDir s' = site.DestDir s.
Proof.
  destruct (SetAbsoluteURL_left_fields s url) as (Hr & Hd & Hs & Hdst & Hi & He).
  simpl in *. repeat split.
  - intros u. unfold site.URLPage. now rewrite Hr.
  - intros u. unfold site_r2.URLPage. now rewrite Hr.
  - intros order rel. unfold site.FilePathPage.
    induction order as [|[k p] order IH]; [reflexivity|]. simpl.
    unfold site.SourceDir. rewrite Hs.
    destruct (negb _); [|exact IH].
    destruct (Rel _ _); [|exact IH]. now rewrite IH.
  - unfold site.FilenameURLs, site.Pages. rewrite Hd.
    generalize (∅ : gmap string string).
    induction (filter _ (site.docs s)) as [|p ps IH]; intros urls; [reflexivity|].
    simpl. unfold site.SourceDir. rewrite Hs.
    destruct (MustRel _ _); [apply IH | reflexivity].
  - intros p. unfold site.Exclude. generalize (S (String.length p)) as fuel.
    intros fuel. revert p. induction fuel as [|fuel IH]; intros p; [reflexivity|].
    simpl. rewrite Hi, He. now rewrite IH.
  - unfold site.DestDir. now rewrite Hs, Hdst.
Qed.

End MoreURLFacts.

Lemma FilenameURLs_panics_iff_witness :
  site.FilenameURLs mixed_site
    = Panics "Rel: can't make rel/a.md relative to /abs".
Proof.
  apply (FilenameURLs_panics_iff mixed_site).
  exists [page "/abs/ok.md" "/ok/"], (page "rel/a.md" "/a/"), [].
  split; [reflexivity|]. split; [|reflexivity].
  repeat constructor. now exists "ok.md".
Defined.

(** ** More on the hooks and the rendering manager *)

Section MoreHookFacts.

Context `{Externals}.

(** X10.  Running the hooks of a list of plugins is running those of its
    first part and then, unless one of them failed, those of the rest from
    the state that the first part left; the error of the first part stops
    the dispatch. *)
Theorem runHooks_in_two_parts {St : Type} (s : site.Site)
    (h : Plugin -> St -> option error * St) (names1 names2 : list string)
    (st : St) :
  config.Plugins (site.config s) = names1 ++ names2 ->
  site.runHooks s h st =
    match site.runHooks_range h names1 st with
    | (Some err, st') => (Some err, st')
    | (None, st') => site.runHooks_range h names2 st'
    end.
Proof.
  intros Hp. unfold site.runHooks. rewrite Hp. clear Hp. revert st.
  induction names1 as [|name names1 IH]; intros st; simpl; [reflexivity|].
  destruct (Lookup name); [|apply IH].
  destruct (h _ st) as [[err|] st']; [reflexivity | apply IH].
Qed.

(** X11.  The names that the registry does not know can be struck from
    the configuration without any change to [runHooks]; with no
    registered name configured it returns nil and the callback is not
    invoked, the state being the one before the call. *)
Theorem runHooks_skips_unregistered {St : Type} (s : site.Site)
    (h : Plugin -> St -> option error * St) (st : St) :
  site.runHooks s h st =
    site.runHooks_range h
      (List.filter (fun name => site.found (Lookup name))
         (config.Plugins (site.config s))) st /\
  (Forall (fun name => Lookup name = None) (config.Plugins (site.config s)) ->
   site.runHooks s h st = (None, st)).
Proof.
  unfold site.runHooks. split.
  - revert st.
    induction (config.Plugins (site.config s)) as [|name names IH]; intros st;
      [reflexivity|].
    simpl. destruct (Lookup name) as [p|] eqn:Hl; simpl; [|apply IH].
    rewrite Hl. destruct (h p st) as [[err|] st']; [reflexivity | apply IH].
  - induction 1 as [|name names Hl _ IH]; [reflexivity|].
    simpl. now rewrite Hl.
Qed.

End MoreHookFacts.

Lemma runHooks_in_two_parts_witness :
  site.runHooks plugins_site (failing_on "jekyll-feed") 0 = (Some "failed", 1).
Proof.
  rewrite (runHooks_in_two_parts plugins_site (failing_on "jekyll-feed")
             ["jekyll-missing"; "jekyll-feed"] ["jekyll-sitemap"] 0);
    reflexivity.
Defined.

Lemma runHooks_skips_unregistered_witness :
  site.runHooks unregistered_site (failing_on "jekyll-missing") 0 = (None, 0) /\
  site.runHooks plugins_site (failing_on "jekyll-sitemap") 0
    = site.runHooks_range (failing_on "jekyll-sitemap")
        ["jekyll-feed"; "jekyll-sitemap"] 0.
Proof.
  split.
  - apply (runHooks_skips_unregistered unregistered_site).
    repeat constructor.
  - apply (runHooks_skips_unregistered plugins_site).
Defined.

Section RendererFacts.

Context `{Ren : Rendering}.

(** X12.  When [renderers.New] returns an error, [initializeRenderers]
    returns this error with the state that [New] left: no plugin is asked to
    configure the template engine.  The renderer of the site is what [New]
    returned beside the error, so that with a nil manager
    [RendererManager] still panics after the call; the other fields of the
    site are unchanged. *)
Theorem initializeRenderers_New_error (s : site.Site) (w w1 : World)
    (m : option Manager) (err : error) :
  New (site.config s) (site.options_of s) w = ((m, Some err), w1) ->
  site.initializeRenderers s w = Returns (site.set_renderer s m, Some err, w1) /\
  (m = None ->
   site.RendererManager (site.set_renderer s m)
     = Panics "uninitialized rendering manager").
Proof.
  intros Hn. unfold site.initializeRenderers. rewrite Hn.
  split; [reflexivity|]. now intros ->.
Qed.

(** X13.  When [renderers.New] returns a manager and no error, the
    error of [initializeRenderers] is the one of the dispatch of
    [ConfigureTemplateEngine] over the configured plugins; and the manager
    stays in the site also when a plugin fails, so that [RendererManager]
    returns it after a failed initialization too. *)
Theorem initializeRenderers_keeps_manager (s : site.Site) (w w1 : World)
    (mgr : Manager) (engine : Engine) :
  New (site.config s) (site.options_of s) w = ((Some mgr, None), w1) ->
  Manager_TemplateEngine (Some mgr) = Returns engine ->
  exists e w2,
    site.runHooks s (fun p => ConfigureTemplateEngine p engine) w1 = (e, w2) /\
    site.initializeRenderers s w
      = Returns (site.set_renderer s (Some mgr), e, w2) /\
    site.RendererManager (site.set_renderer s (Some mgr)) = Returns mgr.
Proof.
  intros Hn He. unfold site.initializeRenderers. rewrite Hn. simpl. rewrite He.
  destruct (site.runHooks (site.set_renderer s (Some mgr))
              (fun p => ConfigureTemplateEngine p engine) w1) as [e w2] eqn:Hr.
  exists e, w2. split; [exact Hr|]. split; reflexivity.
Qed.

End RendererFacts.

Lemma initializeRenderers_New_error_witness :
  site.initializeRenderers (Ren := sample_rendering) sourceless_site []
    = Returns (sourceless_site, Some "no source directory", []).
Proof.
  apply (initializeRenderers_New_error (Ren := sample_rendering)
           sourceless_site [] [] None "no source directory").
  reflexivity.
Defined.

Lemma initializeRenderers_keeps_manager_witness :
  exists e w2,
    site.runHooks plugins_site (fun p => Configure_sample p 7) [] = (e, w2) /\
    site.initializeRenderers (Ren := sample_rendering) plugins_site []
      = Returns (site.set_renderer plugins_site (Some 7), e, w2) /\
    site.RendererManager (site.set_renderer plugins_site (Some 7)) = Returns 7.
Proof.
  apply (initializeRenderers_keeps_manager (Ren := sample_rendering)
           plugins_site [] [] 7 7); reflexivity.
Defined.

Example initializeRenderers_ex1 :
  site.initializeRenderers (Ren := sample_rendering) plugins_site []
    = Returns (site.set_renderer plugins_site (Some 7), Some "failed",
               ["jekyll-feed"; "jekyll-sitemap"]).
Proof. reflexivity. Qed.

(** ** The destination, the output documents and the posts *)

Section MoreSiteFacts.

Context `{Externals}.

Import pages.

(** X14.  [DestDir] is an absolute path exactly when the destination or
    the source directory of the configuration is one. *)
Theorem DestDir_absolute (s : site.Site) :
  filepath.IsAbs (site.DestDir s) =
    filepath.IsAbs (config.Destination (site.config s))
    || filepath.IsAbs (config.Source (site.config s)).
Proof.
  unfold site.DestDir, filepath.IsAbs.
  destruct (filepath.rooted (config.Destination (site.config s))) eqn:Hd;
    [exact Hd|].
  simpl.
  destruct (config.Source (site.config s) =? "") eqn:Hs.
  - apply String.eqb_eq in Hs. rewrite Hs.
    destruct (config.Destination (site.config s) =? ""); [reflexivity|].
    now rewrite rooted_Clean.
  - apply String.eqb_neq in Hs. rewrite rooted_Clean.
    now apply rooted_app.
Qed.

(** X15.  In whatever order the routes are ranged over, [OutputDocs] has
    one entry for each key of [Routes], and its documents are those that
    some URL leads to. *)
Theorem OutputDocs_are_the_routes (s : site.Site)
    (order : list (string * Document)) :
  site.range_order (site.Routes s) order ->
  length (site.OutputDocs order s) = size (site.Routes s) /\
  (forall d, d ∈ site.OutputDocs order s <->
             exists k, site.Routes s !! k = Some d).
Proof.
  intros Ho. unfold site.OutputDocs. split.
  - rewrite length_map. unfold site.range_order in Ho. rewrite Ho.
    apply length_map_to_list.
  - intros d. change (List.map snd order) with (snd <$> order).
    rewrite list_elem_of_fmap. split.
    + intros ([k d'] & -> & Hin). exists k.
      now apply (range_order_lookup (site.Routes s) order k d' Ho).
    + intros [k Hk]. exists (k, d). split; [reflexivity|].
      now apply (range_order_lookup (site.Routes s) order k d Ho).
Qed.

(** X16.  [Posts] returns the pages of the first collection named
    [posts], whatever follows it, and no page when no collection has this
    name. *)
Theorem Posts_first_collection (s : site.Site) :
  (forall cs1 c cs2,
     site.Collections s = cs1 ++ c :: cs2 ->
     Forall (fun c' => collection.Name c' <> "posts") cs1 ->
     collection.Name c = "posts" ->
     site_r2.Posts s = collection.Pages c) /\
  (Forall (fun c' => collection.Name c' <> "posts") (site.Collections s) ->
   site_r2.Posts s = []).
Proof.
  unfold site_r2.Posts. split.
  - intros cs1 c cs2 -> Hall Hc.
    induction Hall as [|c' cs1 Hc' _ IH]; simpl.
    + apply String.eqb_eq in Hc. now rewrite Hc.
    + apply String.eqb_neq in Hc'. now rewrite Hc'.
  - induction 1 as [|c' cs Hc' _ IH]; [reflexivity|]. simpl.
    apply String.eqb_neq in Hc'. now rewrite Hc'.
Qed.

End MoreSiteFacts.

Lemma OutputDocs_are_the_routes_witness :
  length (site.OutputDocs (map_to_list (site.Routes two_pages_site)) two_pages_site)
    = size (site.Routes two_pages_site).
Proof.
  apply (OutputDocs_are_the_routes two_pages_site).
  unfold site.range_order. reflexivity.
Defined.

Lemma Posts_first_collection_witness :
  site_r2.Posts posts_site = [page "src/_posts/p.md" "/p/"].
Proof.
  apply (proj1 (Posts_first_collection posts_site)
           [ {| collection.Name := "pages";
                collection.Pages := [page "src/a.md" "/a/"] |} ]
           {| collection.Name := "posts";
              collection.Pages := [page "src/_posts/p.md" "/p/"] |}
           [ {| collection.Name := "posts";
                collection.Pages := [page "src/_posts/q.md" "/q/"] |} ]).
  - reflexivity.
  - repeat constructor. discriminate.
  - reflexivity.
Defined.

Section LastFacts.

Context `{Externals}.

Import pages.

(** X17.  [AbsDir] does not ask for the working directory when the source
    directory is absolute, and then it is the cleaned source directory; and
    with an absolute working directory it returns, whatever the source
    directory, an absolute path. *)
Theorem AbsDir_absolute (s : site.Site) (wd : string + string) :
  (filepath.IsAbs (site.SourceDir s) = true ->
   site.AbsDir wd s = Returns (filepath.Clean (site.SourceDir s))) /\
  (forall dir, wd = inl dir -> filepath.IsAbs dir = true ->
     exists d, site.AbsDir wd s = Returns d /\ filepath.IsAbs d = true).
Proof.
  unfold site.AbsDir, filepath.Abs. split.
  - now intros ->.
  - intros dir -> Hdir. unfold filepath.IsAbs in *.
    destruct (filepath.rooted (site.SourceDir s)) eqn:Hs.
    + eexists. split; [reflexivity|]. now rewrite rooted_Clean.
    + eexists. split; [reflexivity|].
      assert (Hne : dir <> "") by (intros ->; discriminate).
      simpl. apply String.eqb_neq in Hne. rewrite Hne.
      apply String.eqb_neq in Hne.
      rewrite rooted_Clean, rooted_app by exact Hne. exact Hdir.
Qed.

Lemma first_verdict_excluded (s : site.Site) (ls1 ls2 : list string) (l : string) :
  Forall (fun l' => MatchList (config.Include (site.config s)) l' = false) ls1 ->
  level_verdict s l = Some true ->
  first_verdict (List.map (level_verdict s) (ls1 ++ l :: ls2)) = true.
Proof.
  intros Hall Hl. induction Hall as [|l' ls1 Hin _ IH]; simpl.
  - now rewrite Hl.
  - unfold level_verdict at 1. rewrite Hin.
    destruct (MatchList (config.Exclude (site.config s)) l'); [reflexivity|].
    destruct (negb _ && _); [reflexivity|].
    destruct (site.excludeFileRE_MatchString _); [reflexivity | exact IH].
Qed.

(** X18.  A relative path is excluded as soon as one level of its walk
    is hit by a rule that excludes (an exclude pattern, the underscore rule
    or the junk-file rule, and no include pattern), when no include pattern
    matches a level below it: a file anywhere under a hidden directory is
    excluded. *)
Theorem Exclude_by_a_level (s : site.Site) (p : string)
    (ls1 ls2 : list string) (l : string) :
  filepath.rooted p = false ->
  levels p = ls1 ++ l :: ls2 ->
  Forall (fun l' => MatchList (config.Include (site.config s)) l' = false) ls1 ->
  level_verdict s l = Some true ->
  site.Exclude s p = Some true.
Proof.
  intros Hr Hl Hall Hv.
  destruct (Exclude_returns s p Hr) as [b Hb]. rewrite Hb. f_equal.
  rewrite (Exclude_loop_walk s _ p b Hb).
  fold (levels p). rewrite Hl. now apply first_verdict_excluded.
Qed.





End LastFacts.

Lemma AbsDir_absolute_witness :
  site.AbsDir (inr "getwd: no such file or directory") mixed_site = Returns "/abs" /\
  exists d, site.AbsDir (inl "/home/me/blog") plain_site = Returns d /\
            filepath.IsAbs d = true.
Proof.
  split.
  - apply (AbsDir_absolute mixed_site). reflexivity.
  - apply (AbsDir_absolute plain_site (inl "/home/me/blog") ) with (dir := "/home/me/blog");
      reflexivity.
Defined.

Lemma Exclude_by_a_level_witness :
  site.Exclude plain_site "a/.git/hooks/pre-commit" = Some true.
Proof.
  apply (Exclude_by_a_level plain_site "a/.git/hooks/pre-commit"
           ["a/.git/hooks/pre-commit"; "a/.git/hooks"] ["a"] "a/.git");
    [reflexivity | reflexivity | repeat constructor | reflexivity].
Defined.

